(** * Web3 audit intelligence: the collection pipeline, its scheduler and
    the read API, embedded from the Python sources.

    Source files embedded here:
    - [src/collectors/base_collector.py]      (module [BaseCollector])
    - [src/collectors/code4rena_collector.py] (module [Code4rena])
    - [run.py]                                (module [Run])
    - [src/api/routes.py]                     (module [Routes])
    - [src/database/models.py]                (the row types in [Py])

    Effectful code is written in a state-and-exception monad over an
    explicit [state]: the HTTP request counter, the clock-read counter, the
    file store, the two database tables and the trace of observable events
    (log records, prints, sleeps). *)

From stdpp Require Import gmap strings list pretty.
From Stdlib Require Import ZArith Ascii String Lia.

Local Open Scope string_scope.
Local Open Scope Z_scope.
Local Open Scope list_scope.

(** ** Python values, exceptions and the effect monad *)

Module Py.

(** Instances of [Exception].  Everything the modelled code or the
    libraries it calls can raise is one of these; signals that derive from
    [BaseException] only (task cancellation, keyboard interrupt) stand for
    termination of the process from outside and are not values of this
    type. *)
Inductive exn :=
| ClientError (msg : string)      (* aiohttp transport and payload errors *)
| AttributeError (msg : string)
| ValueError (msg : string)
| NameError (msg : string)
| TypeError (msg : string)
| OSError (msg : string)          (* FileNotFoundError, IsADirectoryError *)
| OtherError (cls msg : string).

(** [str(e)] *)
Definition exn_str (e : exn) : string :=
  match e with
  | ClientError m | AttributeError m | ValueError m | NameError m
  | TypeError m | OSError m | OtherError _ m => m
  end.

Inductive result (A : Type) :=
| Ok (a : A)
| Raise (e : exn).
Arguments Ok {A} a.
Arguments Raise {A} e.

Definition is_ok {A} (r : result A) : bool :=
  match r with Ok _ => true | Raise _ => false end.

(** Rows of the two tables of [models.py]; nullable columns are options. *)
Record AuditReportRow := {
  ar_id : Z;
  ar_platform : string;
  ar_title : string;
  ar_url : option string;
  ar_date_collected : option string;
  ar_date_published : option string;
  ar_prize_pool : option string;
  ar_participants : option Z;
  ar_raw_data : option string
}.

Record FindingRow := {
  fr_id : Z;
  fr_report_id : option Z;
  fr_severity : option string;
  fr_title : option string;
  fr_description : option string;
  fr_impact : option string;
  fr_recommendation : option string
}.

(** Observable events, in the order the program produces them. *)
Inductive event :=
| LogInfo (logger msg : string)
| LogError (logger msg : string)
| Print (line : string)
| Sleep (seconds : Z).

Record state := {
  requests : nat;                   (* HTTP requests issued so far *)
  clock_reads : nat;                (* calls of datetime.now() so far *)
  dirs : gset string;               (* existing directories *)
  files : gmap string string;       (* regular files: path to content *)
  audit_reports : list AuditReportRow;
  findings : list FindingRow;
  trace : list event
}.

(** The world outside the process: what the [n]-th HTTP request answers
    for a URL (the response body already parsed by BeautifulSoup, or the
    exception raised by [session.get] / [response.text]), and what the
    [n]-th clock read shows in the two formats the program uses. *)
Record World (page : Type) := {
  http_get : nat → string → result page;
  now_isoformat : nat → string;               (* datetime.now().isoformat() *)
  now_stamp : nat → string                    (* strftime('%Y%m%d_%H%M%S') *)
}.
Arguments http_get {page} _ _ _.
Arguments now_isoformat {page} _ _.
Arguments now_stamp {page} _ _.

(** A computation reads and updates the state and either returns or
    raises; the state changes made before a raise persist. *)
Definition M (A : Type) : Type := state → result A * state.

Definition ret {A} (a : A) : M A := λ σ, (Ok a, σ).
Definition raise {A} (e : exn) : M A := λ σ, (Raise e, σ).
Definition bind {A B} (m : M A) (k : A → M B) : M B :=
  λ σ, match m σ with
       | (Ok a, σ') => k a σ'
       | (Raise e, σ') => (Raise e, σ')
       end.

(** [try: m  except Exception as e: h e] *)
Definition try_except {A} (m : M A) (h : exn → M A) : M A :=
  λ σ, match m σ with
       | (Ok a, σ') => (Ok a, σ')
       | (Raise e, σ') => h e σ'
       end.

Definition lift {A} (r : result A) : M A := λ σ, (r, σ).

Notation "'let*' x ':=' m 'in' k" := (bind m (λ x, k))
  (at level 10, x name, m at level 100, k at level 200,
   format "'let*'  x  ':='  m  'in' '//' k").
Notation "m ';;;' k" := (bind m (λ _, k))
  (at level 100, k at level 200, right associativity).

Definition emit (ev : event) : M unit :=
  λ σ, (Ok tt,
        {| requests := requests σ; clock_reads := clock_reads σ;
           dirs := dirs σ; files := files σ;
           audit_reports := audit_reports σ; findings := findings σ;
           trace := trace σ ++ [ev] |}).

(** *** Strings *)

(** [str.isspace] on the ASCII range. *)
Definition is_space (c : ascii) : bool :=
  let n := nat_of_ascii c in
  ((9 <=? n)%nat && (n <=? 13)%nat) || ((28 <=? n)%nat && (n <=? 32)%nat).

Fixpoint lstrip (s : string) : string :=
  match s with
  | String c s' => if is_space c then lstrip s' else s
  | EmptyString => EmptyString
  end.

Definition rstrip (s : string) : string := String.rev (lstrip (String.rev s)).

(** [s.strip()] *)
Definition strip (s : string) : string := rstrip (lstrip s).

Definition digit_of (c : ascii) : option Z :=
  let n := nat_of_ascii c in
  if ((48 <=? n)%nat && (n <=? 57)%nat)%bool then Some (Z.of_nat n - 48) else None.

(** The digit part of a base-10 literal: digits, with single underscores
    allowed between two digits. *)
Fixpoint digits_value (acc : Z) (after_digit : bool) (s : string) : option Z :=
  match s with
  | EmptyString => if after_digit then Some acc else None
  | String c s' =>
      match digit_of c with
      | Some d => digits_value (10 * acc + d) true s'
      | None =>
          if (Ascii.eqb c "_" && after_digit)%bool
          then digits_value acc false s'
          else None
      end
  end.

(** [repr] of a string of printable characters without quotes or
    backslashes (other strings are escaped by Python; only the text of an
    error message depends on it). *)
Definition repr (s : string) : string := "'" +:+ s +:+ "'".

(** The white space [int] skips around a literal: tab, line feed,
    vertical tab, form feed, carriage return and space.  The separators
    28 to 31, which [str.strip] removes, are not among them. *)
Definition is_int_space (c : ascii) : bool :=
  let n := nat_of_ascii c in
  ((9 <=? n)%nat && (n <=? 13)%nat) || (n =? 32)%nat.

(** Removing from both ends the characters that satisfy [sp]. *)
Fixpoint lstrip_by (sp : ascii → bool) (s : string) : string :=
  match s with
  | String c s' => if sp c then lstrip_by sp s' else s
  | EmptyString => EmptyString
  end.

Definition strip_by (sp : ascii → bool) (s : string) : string :=
  String.rev (lstrip_by sp (String.rev (lstrip_by sp s))).

(** [int(s)] for a string: surrounding whitespace is ignored, one sign is
    allowed, anything else raises [ValueError].  The interpreter's cap on
    the number of digits is not part of this function. *)
Definition int (s : string) : result Z :=
  let bad := Raise (ValueError ("invalid literal for int() with base 10: " +:+ repr s)) in
  match strip_by is_int_space s with
  | String "-" ds => match digits_value 0 false ds with Some v => Ok (- v) | None => bad end
  | String "+" ds => match digits_value 0 false ds with Some v => Ok v | None => bad end
  | ds => match digits_value 0 false ds with Some v => Ok v | None => bad end
  end.

(** [xs[:limit]] on a list: a negative bound counts from the end. *)
Definition slice_to {A} (limit : Z) (xs : list A) : list A :=
  if limit <? 0
  then take (Z.to_nat (Z.of_nat (List.length xs) + limit)) xs
  else take (Z.to_nat limit) xs.

(** *** The file store *)

(** The part of a path before its last slash.  Paths are compared as they
    are written; the program builds them from one fixed prefix. *)
Fixpoint dirname_go (s : string) : option string :=
  match s with
  | EmptyString => None
  | String c s' =>
      match dirname_go s' with
      | Some d => Some (String c d)
      | None => if Ascii.eqb c "/" then Some EmptyString else None
      end
  end.

Definition dirname (path : string) : string := default "." (dirname_go path).

(** [open(path, 'w')]: raises when the path is a directory or its parent
    directory does not exist; otherwise the file exists afterwards and is
    empty (created, or truncated when it was there). *)
Definition open_w (path : string) : M unit :=
  λ σ, if bool_decide (path ∈ dirs σ)
       then (Raise (OSError ("[Errno 21] Is a directory: " +:+ repr path)), σ)
       else if bool_decide (dirname path ∈ dirs σ)
       then (Ok tt,
             {| requests := requests σ; clock_reads := clock_reads σ;
                dirs := dirs σ; files := <[path := EmptyString]> (files σ);
                audit_reports := audit_reports σ; findings := findings σ;
                trace := trace σ |})
       else (Raise (OSError ("[Errno 2] No such file or directory: " +:+ repr path)), σ).

(** [f.write(text)] on a file opened by [open_w]: appends to its content. *)
Definition write (path text : string) : M unit :=
  λ σ, (Ok tt,
        {| requests := requests σ; clock_reads := clock_reads σ;
           dirs := dirs σ;
           files := <[path := default EmptyString (files σ !! path) +:+ text]> (files σ);
           audit_reports := audit_reports σ; findings := findings σ;
           trace := trace σ |}).

(** Looking a name up in a module's global scope. *)
Definition resolve_global (globals : list string) (name : string) : M unit :=
  if bool_decide (name ∈ globals) then ret tt
  else raise (NameError ("name " +:+ repr name +:+ " is not defined")).

End Py.
Export Py.

(** ** BeautifulSoup trees *)

Module Bs4.

#[local] Set Warnings "-register-all".

(** A parsed page.  A tag keeps its [class] attribute as the list of its
    class names, as bs4 does, and its other attributes as a dictionary. *)
Inductive node :=
| NavigableString (s : string)
| Comment (s : string)
| Tag (name : string) (classes : list string) (attrs : gmap string string)
      (contents : list node).

(** All nodes below [n], in document order. *)
Fixpoint descendants (n : node) : list node :=
  match n with
  | NavigableString _ | Comment _ => []
  | Tag _ _ _ contents =>
      (fix go (cs : list node) : list node :=
         match cs with
         | [] => []
         | c :: cs' => c :: descendants c ++ go cs'
         end) contents
  end.

Definition is_tag (name : string) (n : node) : bool :=
  match n with
  | Tag nm _ _ _ => bool_decide (nm = name)
  | _ => false
  end.

(** A tag matches [class_=cls] when [cls] is one of its class names. *)
Definition has_class (cls : string) (n : node) : bool :=
  match n with
  | Tag _ classes _ _ => bool_decide (cls ∈ classes)
  | _ => false
  end.

(** [soup.find_all(name, class_=cls)] *)
Definition find_all (name cls : string) (soup : node) : list node :=
  List.filter (λ n, is_tag name n && has_class cls n) (descendants soup).

(** [soup.find(name, class_=cls)]: the first match or [None]. *)
Definition find_class (name cls : string) (soup : node) : option node :=
  head (find_all name cls soup).

(** [element.find(name)] *)
Definition find (name : string) (element : node) : option node :=
  head (List.filter (is_tag name) (descendants element)).

(** [element.get(key, default)] *)
Definition get (key dflt : string) (element : node) : string :=
  match element with
  | Tag _ _ attrs _ => default dflt (attrs !! key)
  | _ => dflt
  end.

(** [element.text]: the strings below the element, concatenated; comments
    do not count. *)
Fixpoint text (n : node) : string :=
  match n with
  | NavigableString s => s
  | Comment _ => EmptyString
  | Tag _ _ _ contents =>
      (fix go (cs : list node) : string :=
         match cs with
         | [] => EmptyString
         | c :: cs' => text c +:+ go cs'
         end) contents
  end.

(** The number of nodes below [n] that satisfy [p], counted on the tree
    itself. *)
Fixpoint count_nodes (p : node → bool) (n : node) : nat :=
  match n with
  | NavigableString _ | Comment _ => 0%nat
  | Tag _ _ _ contents =>
      (fix go (cs : list node) : nat :=
         match cs with
         | [] => 0%nat
         | c :: cs' => ((if p c then 1 else 0) + count_nodes p c + go cs')%nat
         end) contents
  end.

(** A contest card of the index page: a [div] of class [contest-card]. *)
Definition is_contest_card (n : node) : bool :=
  is_tag "div" n && has_class "contest-card" n.

(** A finding container of a contest page: a [div] of class [finding]. *)
Definition is_finding_container (n : node) : bool :=
  is_tag "div" n && has_class "finding" n.

End Bs4.
Export Bs4.


(** ** Collected records *)

Module Data.

(** One entry of a report's [findings] list: a dictionary with exactly the
    keys [severity], [title] and [description]. *)
Record finding := {
  f_severity : string;
  f_title : string;
  f_description : string
}.

(** One entry of the contest list: keys [slug], [title], [url]. *)
Record contest := {
  c_slug : string;
  c_title : string;
  c_url : string
}.

(** The values a report dictionary holds. *)
Inductive pyval :=
| VStr (s : string)
| VInt (n : Z)
| VFindings (fs : list finding).

(** [bool(d)] of a dictionary. *)
Definition truthy (d : gmap string pyval) : bool := negb (size d =? 0)%nat.

End Data.
Export Data.

(** ** src/collectors/base_collector.py *)

Module BaseCollector.
Section WithWorld.

Context (w : World node).
(** [json.dump(data, f, indent=2)] as a text; the serializer belongs to
    the standard library. *)
Context (json_dumps : gmap string pyval → string).

(** The names bound in the module's global scope: its imports and its
    one class. *)
Definition module_globals : list string :=
  ["ABC"; "abstractmethod"; "Dict"; "List"; "Any"; "logging"; "datetime";
   "BaseCollector"].

(** [datetime.now()] read in one of the two formats. *)
Definition read_clock (fmt : World node → nat → string) : M string :=
  λ σ, (Ok (fmt w (clock_reads σ)),
        {| requests := requests σ; clock_reads := S (clock_reads σ);
           dirs := dirs σ; files := files σ;
           audit_reports := audit_reports σ; findings := findings σ;
           trace := trace σ |}).

Definition raw_path (name filename timestamp : string) : string :=
  "data/raw/" +:+ name +:+ "_" +:+ filename +:+ "_" +:+ timestamp +:+ ".json".

Definition save_raw_data (name : string) (data : gmap string pyval)
    (filename : string) : M unit :=
  let* timestamp := read_clock now_stamp in
  let filepath := raw_path name filename timestamp in
  let* _ := open_w filepath in
  let* _ := resolve_global module_globals "json" in
  let* _ := write filepath (json_dumps data) in
  emit (LogInfo name ("Saved raw data to " +:+ filepath)).

(** The methods [BaseCollector] declares with [@abstractmethod]. *)
Definition abstract_methods : list string := ["collect"; "parse_report"].

Definition required_fields : list string :=
  ["title"; "platform"; "date"; "findings"].

Definition validate_data (data : gmap string pyval) : bool :=
  forallb (λ field, bool_decide (is_Some (data !! field))) required_fields.

End WithWorld.
End BaseCollector.

(** ** src/collectors/code4rena_collector.py *)

Module Code4rena.
Section WithWorld.

Context (w : World node).
Context (json_dumps : gmap string pyval → string).

(** The methods the class body of [Code4renaCollector] defines. *)
Definition class_methods : list string :=
  ["__init__"; "collect"; "get_contests"; "collect_contest_data";
   "extract_findings"; "extract_prize_pool"; "extract_participants"].

(** The abstract methods of the base class that the class leaves without
    an implementation. *)
Definition unimplemented : list string :=
  List.filter (λ m, negb (bool_decide (m ∈ class_methods)))
    BaseCollector.abstract_methods.

Fixpoint join (sep : string) (parts : list string) : string :=
  match parts with
  | [] => EmptyString
  | [part] => part
  | part :: rest => part +:+ sep +:+ join sep rest
  end.

(** [Code4renaCollector()]: a subclass of an [ABC] can be instantiated only
    when no abstract method is left; otherwise the call raises [TypeError]
    before [__init__] runs.  (The wording of the message is that of
    Python 3.11.) *)
Definition instantiate : result unit :=
  match unimplemented with
  | [] => Ok tt
  | [m] =>
      Raise (TypeError ("Can't instantiate abstract class Code4renaCollector "
                        +:+ "with abstract method " +:+ m))
  | ms =>
      Raise (TypeError ("Can't instantiate abstract class Code4renaCollector "
                        +:+ "with abstract methods " +:+ join ", " ms))
  end.

Definition name : string := "Code4rena".
Definition base_url : string := "https://code4rena.com".
Definition contests_url : string := base_url +:+ "/contests".

(** [session.get(url)] followed by [response.text()] and the parse. *)
Definition session_get (url : string) : M node :=
  λ σ, (http_get w (requests σ) url,
        {| requests := S (requests σ); clock_reads := clock_reads σ;
           dirs := dirs σ; files := files σ;
           audit_reports := audit_reports σ; findings := findings σ;
           trace := trace σ |}).

(** The dictionary built for one contest card; [element.find('h3')] is
    [None] on a card without heading, and [None.text] raises. *)
Definition contest_of (element : node) : result contest :=
  let slug := get "data-slug" "" element in
  match find "h3" element with
  | None => Raise (AttributeError "'NoneType' object has no attribute 'text'")
  | Some h3 =>
      Ok {| c_slug := slug;
            c_title := strip (text h3);
            c_url := base_url +:+ "/contests/" +:+ get "data-slug" "" element |}
  end.

Fixpoint get_contests_loop (elements : list node) (contests : list contest)
    : result (list contest) :=
  match elements with
  | [] => Ok contests
  | element :: rest =>
      match contest_of element with
      | Ok c => get_contests_loop rest (contests ++ [c])
      | Raise e => Raise e
      end
  end.

Definition contest_elements (limit : Z) (soup : node) : list node :=
  slice_to limit (find_all "div" "contest-card" soup).

Definition get_contests (limit : Z) : M (list contest) :=
  let* soup := session_get contests_url in
  lift (get_contests_loop (contest_elements limit soup) []).

Definition finding_of (element : node) : finding :=
  {| f_severity := get "data-severity" "unknown" element;
     f_title := match find "h4" element with
                | Some h4 => strip (text h4)
                | None => ""
                end;
     f_description := match find "p" element with
                      | Some p => strip (text p)
                      | None => ""
                      end |}.

Fixpoint extract_findings_loop (elements : list node) (findings : list finding)
    : list finding :=
  match elements with
  | [] => findings
  | element :: rest => extract_findings_loop rest (findings ++ [finding_of element])
  end.

Definition extract_findings (soup : node) : list finding :=
  extract_findings_loop (find_all "div" "finding" soup) [].

Definition extract_prize_pool (soup : node) : string :=
  match find_class "div" "prize-pool" soup with
  | Some prize_element => strip (text prize_element)
  | None => "N/A"
  end.

Definition extract_participants (soup : node) : result Z :=
  match find_class "span" "participants-count" soup with
  | Some participants_element => int (text participants_element)
  | None => Ok 0
  end.

(** The report dictionary, keys in the order the source writes them. *)
Definition report_dict (contest : contest) (date : string)
    (fs : list finding) (prize : string) (participants : Z)
    : gmap string pyval :=
  list_to_map
    [("platform", VStr "Code4rena");
     ("title", VStr (c_title contest));
     ("url", VStr (c_url contest));
     ("date", VStr date);
     ("findings", VFindings fs);
     ("prize_pool", VStr prize);
     ("participants", VInt participants)].

Definition collect_contest_data (contest : contest) : M (gmap string pyval) :=
  let* soup := session_get (c_url contest) in
  let* date := BaseCollector.read_clock w now_isoformat in
  let fs := extract_findings soup in
  let prize := extract_prize_pool soup in
  let* participants := lift (extract_participants soup) in
  ret (report_dict contest date fs prize participants).

(** The body of the [try] in [collect].  [reports] is a local list that
    the body appends to before it calls [save_raw_data], so the list it
    leaves behind is returned next to the outcome of the body. *)
Definition collect_try (contest : contest) (reports : list (gmap string pyval))
    : state → (list (gmap string pyval) * result unit) * state :=
  λ σ, match collect_contest_data contest σ with
       | (Raise e, σ1) => ((reports, Raise e), σ1)
       | (Ok report, σ1) =>
           if truthy report then
             let reports' := reports ++ [report] in
             let (r, σ2) :=
               BaseCollector.save_raw_data w json_dumps name report
                 (c_slug contest) σ1 in
             ((reports', r), σ2)
           else ((reports, Ok tt), σ1)
       end.

Definition error_collecting (contest : contest) (e : exn) : event :=
  LogError name ("Error collecting " +:+ c_slug contest +:+ ": " +:+ exn_str e).

(** The [for contest in contests] loop with its [try]/[except]. *)
Fixpoint collect_loop (contests : list contest)
    (reports : list (gmap string pyval)) : M (list (gmap string pyval)) :=
  match contests with
  | [] => ret reports
  | contest :: rest =>
      λ σ, match collect_try contest reports σ with
           | ((reports', Ok _), σ') => collect_loop rest reports' σ'
           | ((reports', Raise e), σ') =>
               (emit (error_collecting contest e) ;;;
                collect_loop rest reports') σ'
           end
  end.

Definition collect (limit : Z) : M (list (gmap string pyval)) :=
  emit (LogInfo name ("Starting collection from Code4rena (limit: "
                      +:+ pretty limit +:+ ")")) ;;;
  let* contests := get_contests limit in
  let* reports := collect_loop contests [] in
  emit (LogInfo name ("Collected " +:+ pretty (List.length reports)
                      +:+ " reports")) ;;;
  ret reports.

End WithWorld.
End Code4rena.

(** ** run.py *)

Module Run.
Section WithWorld.

Context (w : World node).
Context (json_dumps : gmap string pyval → string).

(** [await asyncio.sleep(seconds)] *)
Definition sleep (seconds : Z) : M unit := emit (Sleep seconds).

Definition print (line : string) : M unit := emit (Print line).

(** One pass through the body of [while True]. *)
Definition iteration : M unit :=
  try_except
    (let* _ := Code4rena.collect w json_dumps 5 in
     sleep 3600)
    (λ e, print ("Collector error: " +:+ exn_str e) ;;; sleep 60).

(** Where the loop stands after a number of passes: still looping, or
    left because an exception came out of its body. *)
Inductive loop_status :=
| Looping
| Escaped (e : exn).

(** The [while True] loop, run for [fuel] passes. *)
Fixpoint collector_loop (fuel : nat) : state → loop_status * state :=
  match fuel with
  | O => λ σ, (Looping, σ)
  | S fuel' =>
      λ σ, match iteration σ with
           | (Ok _, σ') => collector_loop fuel' σ'
           | (Raise e, σ') => (Escaped e, σ')
           end
  end.

(** [start_collectors]: the collector is created first, outside the loop
    and outside its [try]; an exception of the constructor ends the
    coroutine. *)
Definition start_collectors (fuel : nat) : state → loop_status * state :=
  λ σ, match Code4rena.instantiate with
       | Ok _ => collector_loop fuel σ
       | Raise e => (Escaped e, σ)
       end.

End WithWorld.
End Run.

(** ** src/api/routes.py *)

Module Routes.

(** What the framework sends back for a request. *)
Inductive response (A : Type) :=
| Served (body : A)                       (* 200 *)
| ValidationRejected                      (* 422, handler not called *)
| HttpError (status : Z) (detail : string)
| ServerError (e : exn).                  (* 500 *)
Arguments Served {A} body.
Arguments ValidationRejected {A}.
Arguments HttpError {A} status detail.
Arguments ServerError {A} e.

Section WithDatabase.

(** [DatabaseOperations] lives in [src/database/operations.py], which is
    not among the sources; its three queries are taken as given. *)
Context (db_get_reports : option string → Z → M (list AuditReportRow)).
Context (db_get_report_by_id : Z → M (option AuditReportRow)).
Context (db_get_findings : option string → option Z → M (list FindingRow)).

(** [Query(default, ge=lo, le=hi)] on an integer query parameter: the
    default when the parameter is omitted, a validation error when the
    given value is outside the bounds. *)
Definition Query (dflt lo hi : Z) (given : option Z) : option Z :=
  match given with
  | None => Some dflt
  | Some v => if (lo <=? v) && (v <=? hi) then Some v else None
  end.

Definition root : M (gmap string string) :=
  ret {["message" := "Web3 Audit Intelligence System API"]}.

(** The handler of [GET /reports]. *)
Definition get_reports (platform : option string) (limit : Z)
    : M (list AuditReportRow) :=
  let* reports := db_get_reports platform limit in
  ret reports.

(** [GET /reports] as served: parameter validation, then the handler. *)
Definition serve_get_reports (platform : option string) (limit : option Z)
    : state → response (list AuditReportRow) * state :=
  λ σ, match Query 10 1 100 limit with
       | None => (ValidationRejected, σ)
       | Some l =>
           match get_reports platform l σ with
           | (Ok reports, σ') => (Served reports, σ')
           | (Raise e, σ') => (ServerError e, σ')
           end
       end.

(** The handler of [GET /reports/{report_id}]. *)
Definition get_report (report_id : Z)
    : state → response AuditReportRow * state :=
  λ σ, match db_get_report_by_id report_id σ with
       | (Ok (Some report), σ') => (Served report, σ')
       | (Ok None, σ') => (HttpError 404 "Report not found", σ')
       | (Raise e, σ') => (ServerError e, σ')
       end.

(** The handler of [GET /findings]. *)
Definition get_findings (severity : option string) (report_id : option Z)
    : M (list FindingRow) :=
  let* found := db_get_findings severity report_id in
  ret found.

(** The handler of [POST /collect]. *)
Definition trigger_collection (platform : string) : M (gmap string string) :=
  ret {["message" := "Collection started for " +:+ platform]}.

End WithDatabase.
End Routes.

(** ** What the specification says, in its own words *)

Module Spec.

(** A value counts as non-empty the way the specification uses the word
    for a field of a record. *)
Definition non_empty (v : pyval) : Prop :=
  match v with
  | VStr s => s ≠ EmptyString
  | VInt _ => True
  | VFindings fs => fs ≠ []
  end.

Definition has_non_empty (data : gmap string pyval) (field : string) : Prop :=
  ∃ v, data !! field = Some v ∧ non_empty v.

(** Section 4.3: a record is valid iff it contains non-empty [title],
    [platform], [date], and a [findings] key. *)
Definition valid_record (data : gmap string pyval) : Prop :=
  has_non_empty data "title" ∧ has_non_empty data "platform" ∧
  has_non_empty data "date" ∧ is_Some (data !! "findings").

(** Section 4.1: what the record extracted from one finding container
    holds, with the default of each part. *)
Definition describes (element : node) (f : finding) : Prop :=
  f_severity f =
    match element with
    | Tag _ _ attrs _ => default "unknown" (attrs !! "data-severity")
    | _ => "unknown"
    end
  ∧ f_title f =
    match find "h4" element with Some h4 => strip (text h4) | None => "" end
  ∧ f_description f =
    match find "p" element with Some p => strip (text p) | None => "" end.

End Spec.

(** ** The footprint of a run *)

Module Footprint.

(** The sleeps of a trace, in order. *)
Definition sleeps (tr : list event) : list Z :=
  omap (λ ev, match ev with Sleep s => Some s | _ => None end) tr.

(** [quiet σ σ']: going from [σ] to [σ'] changed no table, slept never,
    created no directory, only added to the trace, and left every file
    either as it was or empty. *)
Record quiet (σ σ' : state) : Prop := {
  quiet_reports : audit_reports σ' = audit_reports σ;
  quiet_findings : findings σ' = findings σ;
  quiet_dirs : dirs σ' = dirs σ;
  quiet_sleeps : sleeps (trace σ') = sleeps (trace σ);
  quiet_trace : ∃ more, trace σ' = trace σ ++ more;
  quiet_files : ∀ path, files σ' !! path = files σ !! path
                        ∨ files σ' !! path = Some EmptyString
}.

Definition quietly {A} (m : M A) : Prop := ∀ σ, quiet σ (snd (m σ)).

(** A record [collect_contest_data] has built for [c] from the answer to
    request number [k]. *)
Definition built_from (w : World node) (k : nat) (c : contest)
    (r : gmap string pyval) : Prop :=
  ∃ page date n,
    http_get w k (c_url c) = Ok page
    ∧ Code4rena.extract_participants page = Ok n
    ∧ r = Code4rena.report_dict c date (Code4rena.extract_findings page)
            (Code4rena.extract_prize_pool page) n.

Definition built (w : World node) (r : gmap string pyval) : Prop :=
  ∃ k c, built_from w k c r.

(** The contests of a list, each with the number of the request that
    fetches its page when the first one is fetched by request [k]. *)
Fixpoint numbered (k : nat) (contests : list contest) : list (nat * contest) :=
  match contests with
  | [] => []
  | c :: rest => (k, c) :: numbered (S k) rest
  end.

End Footprint.
Export Footprint.

(** ** Sample pages, stores and worlds *)

Module Samples.

Definition document (contents : list node) : node :=
  Tag "[document]" [] ∅ contents.

(** [<div class="contest-card" data-slug=slug><h3>heading</h3></div>] *)
Definition card (slug heading : string) : node :=
  Tag "div" ["contest-card"] {["data-slug" := slug]}
    [Tag "h3" [] ∅ [NavigableString heading]].

(** A contest page with one finding and a numeric participant count. *)
Definition page_audit : node :=
  document
    [Tag "div" ["finding"] {["data-severity" := "high"]}
       [Tag "h4" [] ∅ [NavigableString " Reentrancy in withdraw "];
        Tag "p" [] ∅ [NavigableString "Funds can be drained."]];
     Tag "span" ["participants-count"] ∅ [NavigableString "42"]].

(** [<span class="participants-count">many</span>] *)
Definition page_many : node :=
  document [Tag "span" ["participants-count"] ∅ [NavigableString "many"]].

Definition page_bare : node := document [].

Definition dumps (data : gmap string pyval) : string := "{}".

Definition store0 : state :=
  {| requests := 0; clock_reads := 0; dirs := ∅; files := ∅;
     audit_reports := []; findings := []; trace := [] |}.

(** The same store once the directory [data/raw] has been created. *)
Definition store_raw : state :=
  {| requests := 0; clock_reads := 0; dirs := {["data"; "data/raw"]};
     files := ∅; audit_reports := []; findings := []; trace := [] |}.

(** A world whose first request answers the index page and whose later
    requests answer by position. *)
Definition world (index : node) (detail : nat → result node) : World node :=
  {| http_get := λ n url, match n with O => Ok index | S k => detail k end;
     now_isoformat := λ n, "2024-01-01T00:00:00";
     now_stamp := λ n, "20240101_000000" |}.

(** An index with one card whose heading is blank. *)
Definition world_untitled : World node :=
  world (document [card "blank" "  "]) (λ _, Ok page_audit).

(** An index with two cards. *)
Definition world_two : World node :=
  world (document [card "alpha" "Alpha"; card "beta" "Beta"])
        (λ _, Ok page_audit).

(** Five contests; the detail request of the third one fails. *)
Definition world_five : World node :=
  world (document [card "c1" "One"; card "c2" "Two"; card "c3" "Three";
                   card "c4" "Four"; card "c5" "Five"])
        (λ k, if (k =? 2)%nat then Raise (ClientError "Connection reset by peer")
              else Ok page_audit).

(** A record with every required key and an empty title. *)
Definition untitled_record : gmap string pyval :=
  list_to_map
    [("title", VStr ""); ("platform", VStr "Code4rena");
     ("date", VStr "2024-01-01T00:00:00"); ("findings", VFindings [])].

End Samples.

(** ** Measures on cards, records and stores *)

Module Measures.

(** What [get_contests] reads off one contest card. *)
Definition read_from_card (element : node) (c : contest) : Prop :=
  c_slug c = get "data-slug" "" element
  ∧ c_url c = "https://code4rena.com/contests/" +:+ c_slug c
  ∧ ∃ h3, find "h3" element = Some h3 ∧ c_title c = strip (text h3).

(** The error record that [collect] writes for a contest, whatever the
    exception. *)
Definition logged_for (c : contest) (ev : event) : Prop :=
  ∃ e, ev = Code4rena.error_collecting c e.

(** [kept σ σ']: going from [σ] to [σ'] changed no table and no directory
    and left every file as it was or empty. *)
Record kept (σ σ' : state) : Prop := {
  kept_reports : audit_reports σ' = audit_reports σ;
  kept_findings : findings σ' = findings σ;
  kept_dirs : dirs σ' = dirs σ;
  kept_files : ∀ path, files σ' !! path = files σ !! path
                       ∨ files σ' !! path = Some EmptyString
}.

(** The seven keys of a report dictionary. *)
Definition report_keys : gset string :=
  {["platform"; "title"; "url"; "date"; "findings"; "prize_pool";
    "participants"]}.

(** A string without a slash. *)
Definition slash_free (s : string) : Prop := dirname_go s = None.

(** Every character of the string satisfies [p]. *)
Fixpoint all_chars (p : ascii → bool) (s : string) : bool :=
  match s with
  | EmptyString => true
  | String c s' => p c && all_chars p s'
  end.

(** The string starts with a character that satisfies [p]. *)
Definition leads_with (p : ascii → bool) (s : string) : bool :=
  match s with
  | EmptyString => false
  | String c _ => p c
  end.

(** A string is trimmed, for a notion [sp] of white space, when it neither
    starts nor ends with white space. *)
Definition trimmed_by (sp : ascii → bool) (s : string) : Prop :=
  leads_with sp s = false ∧ leads_with sp (String.rev s) = false.

Definition is_digit (c : ascii) : bool := bool_decide (is_Some (digit_of c)).

End Measures.
Export Measures.

(** ** Further sample worlds *)

Module Cases.

(** A contest card without heading. *)
Definition card_headless (slug : string) : node :=
  Tag "div" ["contest-card"] {["data-slug" := slug]} [NavigableString "soon"].

(** An index whose second card has no heading. *)
Definition world_headless : World node :=
  Samples.world
    (Samples.document [Samples.card "alpha" "Alpha"; card_headless "beta"])
    (λ _, Ok Samples.page_audit).

(** An index without any contest card. *)
Definition world_empty : World node :=
  Samples.world (Samples.document [Tag "p" [] ∅ [NavigableString "No contests"]])
    (λ _, Ok Samples.page_audit).

(** Two contests; the page of the second has a participant count in
    words. *)
Definition world_words : World node :=
  Samples.world
    (Samples.document [Samples.card "alpha" "Alpha"; Samples.card "beta" "Beta"])
    (λ k, if (k =? 1)%nat then Ok Samples.page_many else Ok Samples.page_audit).

(** A world whose index request fails. *)
Definition world_down : World node :=
  {| http_get := λ n url, Raise (ClientError "Cannot connect to host");
     now_isoformat := λ n, "2024-01-01T00:00:00";
     now_stamp := λ n, "20240101_000000" |}.

End Cases.

(** * Properties *)

(** ** The model on small inputs *)

Example strip_heading : strip "  High risk  " = "High risk".
Proof. reflexivity. Qed.

Example int_padded : int " 42 " = Ok 42.
Proof. reflexivity. Qed.

Example int_signed_grouped : int "-1_000" = Ok (-1000).
Proof. reflexivity. Qed.

Example int_rejects : is_ok (int "") = false ∧ is_ok (int "1__0") = false
                      ∧ is_ok (int "5_") = false ∧ is_ok (int "12 people") = false.
Proof. repeat split. Qed.

Example slice_to_bounds :
  slice_to 2 [1; 2; 3] = [1; 2] ∧ slice_to 7 [1; 2; 3] = [1; 2; 3]
  ∧ slice_to (-1) [1; 2; 3] = [1; 2] ∧ slice_to (-5) [1; 2; 3] = [].
Proof. repeat split. Qed.

Example extract_findings_page_audit :
  Code4rena.extract_findings Samples.page_audit
  = [{| f_severity := "high"; f_title := "Reentrancy in withdraw";
        f_description := "Funds can be drained." |}].
Proof. reflexivity. Qed.

Example extract_participants_page_audit :
  Code4rena.extract_participants Samples.page_audit = Ok 42
  ∧ Code4rena.extract_participants Samples.page_bare = Ok 0.
Proof. split; reflexivity. Qed.

Example extract_prize_pool_page_bare :
  Code4rena.extract_prize_pool Samples.page_bare = "N/A".
Proof. reflexivity. Qed.

(** ** Trees *)

Lemma node_nested_ind (P : node → Prop) :
  (∀ s, P (NavigableString s)) →
  (∀ s, P (Comment s)) →
  (∀ nm cl at_ cs, Forall P cs → P (Tag nm cl at_ cs)) →
  ∀ n, P n.
Proof.
  intros Hs Hc Ht. fix IH 1. intros [s|s|nm cl at_ cs].
  - apply Hs.
  - apply Hc.
  - apply Ht. induction cs as [|c cs IHcs]; constructor; [apply IH | exact IHcs].
Qed.

Lemma filter_length_count (p : node → bool) (n : node) :
  List.length (List.filter p (descendants n)) = count_nodes p n.
Proof.
  induction n as [s|s|nm cl at_ cs IH] using node_nested_ind; try reflexivity.
  cbn [descendants count_nodes].
  induction IH as [|c cs Hc _ IHcs]; [reflexivity|].
  cbn [List.filter]. destruct (p c) eqn:Hp; cbn [List.length];
    rewrite List.filter_app, List.length_app, Hc, IHcs; lia.
Qed.

Lemma extract_findings_loop_map (elements : list node) (acc : list finding) :
  Code4rena.extract_findings_loop elements acc
  = acc ++ List.map Code4rena.finding_of elements.
Proof.
  revert acc. induction elements as [|el els IH]; intros acc; cbn.
  - by rewrite app_nil_r.
  - rewrite IH, <- app_assoc. reflexivity.
Qed.

Lemma finding_of_describes (element : node) :
  Spec.describes element (Code4rena.finding_of element).
Proof. destruct element; repeat split. Qed.

(** C7. [extract_findings] yields one record per finding container of the
    page, in document order: the [i]-th record is read from the [i]-th
    container, its severity is the [data-severity] attribute or
    ["unknown"], its title the stripped text of the first [h4] or the empty
    string, its description the stripped text of the first [p] or the empty
    string; and the number of records is the number of finding containers
    counted on the tree. *)
Theorem extract_findings_one_per_container (soup : node) :
  List.length (Code4rena.extract_findings soup)
    = count_nodes is_finding_container soup
  ∧ Forall2 Spec.describes
      (List.filter is_finding_container (descendants soup))
      (Code4rena.extract_findings soup).
Proof.
  unfold Code4rena.extract_findings. rewrite extract_findings_loop_map.
  cbn [app]. split.
  - rewrite List.length_map. apply filter_length_count.
  - unfold find_all. fold is_finding_container.
    induction (List.filter is_finding_container (descendants soup)) as [|el els IH];
      cbn; constructor; [apply finding_of_describes | exact IH].
Qed.

(** ** Validation *)

(** C2, as the code has it: [validate_data] accepts a record exactly when
    the four keys [title], [platform], [date] and [findings] are present,
    whatever their values. *)
Theorem validate_data_iff_keys (data : gmap string pyval) :
  BaseCollector.validate_data data = true
  ↔ is_Some (data !! "title") ∧ is_Some (data !! "platform")
    ∧ is_Some (data !! "date") ∧ is_Some (data !! "findings").
Proof.
  unfold BaseCollector.validate_data, BaseCollector.required_fields.
  cbn [forallb]. rewrite !andb_true_iff, !bool_decide_eq_true. tauto.
Qed.

(** C2, the claim refuted: a record with all four keys and an empty title
    is accepted, although it has no non-empty title. *)
Lemma validate_data_accepts_empty_title :
  BaseCollector.validate_data Samples.untitled_record = true
  ∧ ¬ Spec.valid_record Samples.untitled_record.
Proof.
  split; [reflexivity|].
  intros [(v & Hv & Hne) _]. vm_compute in Hv. inversion Hv; subst v.
  apply Hne. reflexivity.
Qed.

(** ** Participant count *)

Lemma extract_participants_absent (soup : node) :
  find_class "span" "participants-count" soup = None →
  Code4rena.extract_participants soup = Ok 0.
Proof. intros H. unfold Code4rena.extract_participants. by rewrite H. Qed.

Lemma extract_participants_present (soup element : node) :
  find_class "span" "participants-count" soup = Some element →
  Code4rena.extract_participants soup = int (text element).
Proof. intros H. unfold Code4rena.extract_participants. by rewrite H. Qed.

(** C3, at the failing input: on a page whose participant-count node reads
    [many], [extract_participants] raises [ValueError] instead of
    returning 0. *)
Theorem extract_participants_raises_on_words :
  Code4rena.extract_participants Samples.page_many
  = Raise (ValueError "invalid literal for int() with base 10: 'many'").
Proof. reflexivity. Qed.

(** ** What a collection run leaves untouched *)

Lemma quiet_refl (σ : state) : quiet σ σ.
Proof. split; auto. exists []. by rewrite app_nil_r. Qed.

Lemma quiet_trans (σ1 σ2 σ3 : state) : quiet σ1 σ2 → quiet σ2 σ3 → quiet σ1 σ3.
Proof.
  intros [] []. split; try congruence.
  - destruct quiet_trace0 as [m1 H1], quiet_trace1 as [m2 H2].
    exists (m1 ++ m2). rewrite H2, H1. by rewrite app_assoc.
  - intros path. destruct (quiet_files1 path) as [H|H]; [|by right].
    rewrite H. apply quiet_files0.
Qed.

Lemma sleeps_app (tr1 tr2 : list event) : sleeps (tr1 ++ tr2) = sleeps tr1 ++ sleeps tr2.
Proof. apply omap_app. Qed.

Lemma quietly_ret {A} (a : A) : quietly (ret a).
Proof. intros σ. apply quiet_refl. Qed.

Lemma quietly_raise {A} (e : exn) : quietly (@raise A e).
Proof. intros σ. apply quiet_refl. Qed.

Lemma quietly_lift {A} (r : result A) : quietly (lift r).
Proof. intros σ. apply quiet_refl. Qed.

Lemma quietly_bind {A B} (m : M A) (k : A → M B) :
  quietly m → (∀ a, quietly (k a)) → quietly (bind m k).
Proof.
  intros Hm Hk σ. unfold bind. specialize (Hm σ).
  destruct (m σ) as [[a|e] σ1]; cbn in *; [|done].
  eapply quiet_trans; [exact Hm | apply Hk].
Qed.

Lemma quietly_log_info (logger msg : string) : quietly (emit (LogInfo logger msg)).
Proof.
  intros σ. split; cbn; auto; [| by eexists].
  rewrite sleeps_app. cbn. by rewrite app_nil_r.
Qed.

Lemma quietly_log_error (logger msg : string) : quietly (emit (LogError logger msg)).
Proof.
  intros σ. split; cbn; auto; [| by eexists].
  rewrite sleeps_app. cbn. by rewrite app_nil_r.
Qed.

Lemma quietly_read_clock (w : World node) fmt : quietly (BaseCollector.read_clock w fmt).
Proof. intros σ. split; cbn; auto. exists []. by rewrite app_nil_r. Qed.

Lemma quietly_session_get (w : World node) (url : string) :
  quietly (Code4rena.session_get w url).
Proof. intros σ. split; cbn; auto. exists []. by rewrite app_nil_r. Qed.

Lemma quietly_open_w (path : string) : quietly (open_w path).
Proof.
  intros σ. unfold open_w. repeat case_bool_decide; try apply quiet_refl.
  split; cbn; auto; [exists []; by rewrite app_nil_r |].
  intros p. destruct (decide (path = p)) as [->|Hne].
  - right. apply lookup_insert_eq.
  - left. by apply lookup_insert_ne.
Qed.

Lemma json_unbound :
  resolve_global BaseCollector.module_globals "json"
  = raise (NameError "name 'json' is not defined").
Proof. reflexivity. Qed.

Create HintDb quiet.
#[local] Hint Resolve quietly_ret quietly_raise quietly_lift quietly_log_info
  quietly_log_error quietly_read_clock quietly_session_get quietly_open_w : quiet.

Ltac quiet_steps :=
  repeat (first [ apply quietly_bind; [| intros ? ] | solve [ auto with quiet ] ]).

(** ** Saving the raw record *)

Section Collector.

Context (w : World node).
Context (json_dumps : gmap string pyval → string).

(** [save_raw_data] raises on every call: the error of [open] when the
    file cannot be opened, and otherwise [NameError] for [json], after
    [open] has left an empty file at the path. *)
Lemma save_raw_data_outcome (name : string) (data : gmap string pyval)
    (filename : string) (σ : state) :
  let path := BaseCollector.raw_path name filename (now_stamp w (clock_reads σ)) in
  ∃ e σ',
    BaseCollector.save_raw_data w json_dumps name data filename σ = (Raise e, σ')
    ∧ requests σ' = requests σ
    ∧ trace σ' = trace σ
    ∧ ((∃ msg, e = OSError msg ∧ files σ' = files σ)
       ∨ (e = NameError "name 'json' is not defined"
          ∧ dirname path ∈ dirs σ
          ∧ files σ' = <[path := EmptyString]> (files σ))).
Proof.
  intros path. unfold BaseCollector.save_raw_data.
  rewrite json_unbound. unfold bind, BaseCollector.read_clock, open_w, raise.
  cbn. fold path. repeat case_bool_decide; cbn; eauto 10.
Qed.

Lemma quietly_save_raw_data (name : string) (data : gmap string pyval)
    (filename : string) :
  quietly (BaseCollector.save_raw_data w json_dumps name data filename).
Proof.
  unfold BaseCollector.save_raw_data. rewrite json_unbound.
  apply quietly_bind; [auto with quiet | intros ts].
  apply quietly_bind; [auto with quiet | intros _].
  intros σ. apply quiet_refl.
Qed.

(** ** One contest *)

Lemma collect_contest_data_requests (c : contest) (σ : state) :
  requests (snd (Code4rena.collect_contest_data w c σ)) = S (requests σ).
Proof.
  unfold Code4rena.collect_contest_data, bind, Code4rena.session_get,
    BaseCollector.read_clock, lift, ret. cbn.
  destruct (http_get w (requests σ) (c_url c)) as [page|e]; cbn; [|done].
  destruct (Code4rena.extract_participants page); done.
Qed.

Lemma quietly_collect_contest_data (c : contest) :
  quietly (Code4rena.collect_contest_data w c).
Proof. unfold Code4rena.collect_contest_data. quiet_steps. Qed.

Lemma collect_contest_data_ok (c : contest) (σ σ1 : state) (report : gmap string pyval) :
  Code4rena.collect_contest_data w c σ = (Ok report, σ1) →
  built_from w (requests σ) c report.
Proof.
  unfold Code4rena.collect_contest_data, bind, Code4rena.session_get,
    BaseCollector.read_clock, lift, ret. cbn.
  destruct (http_get w (requests σ) (c_url c)) as [page|e] eqn:Hget; cbn; [|done].
  destruct (Code4rena.extract_participants page) as [n|e] eqn:Hn; [|done].
  intros [= <- _]. by exists page, (now_isoformat w (clock_reads σ)), n.
Qed.

Lemma collect_contest_data_fetched (c : contest) (σ : state) (page : node) (n : Z) :
  http_get w (requests σ) (c_url c) = Ok page →
  Code4rena.extract_participants page = Ok n →
  ∃ report σ1, Code4rena.collect_contest_data w c σ = (Ok report, σ1)
               ∧ built_from w (requests σ) c report.
Proof.
  intros Hget Hn.
  destruct (Code4rena.collect_contest_data w c σ) as [r σ1] eqn:Hrun.
  revert Hrun.
  unfold Code4rena.collect_contest_data, bind, Code4rena.session_get,
    BaseCollector.read_clock, lift, ret. cbn. rewrite Hget. cbn. rewrite Hn.
  intros [= <- <-]. eexists _, _. split; [reflexivity|].
  by exists page, (now_isoformat w (clock_reads σ)), n.
Qed.

Lemma collect_contest_data_fetch_fails (c : contest) (σ : state) (e : exn) :
  http_get w (requests σ) (c_url c) = Raise e →
  ∃ σ1, Code4rena.collect_contest_data w c σ = (Raise e, σ1)
        ∧ trace σ1 = trace σ.
Proof.
  intros Hget.
  unfold Code4rena.collect_contest_data, bind, Code4rena.session_get. cbn.
  rewrite Hget. by eexists.
Qed.

(** Every built record has all seven keys. *)
Lemma report_dict_truthy c date fs prize n :
  truthy (Code4rena.report_dict c date fs prize n) = true.
Proof. reflexivity. Qed.

Lemma report_dict_valid c date fs prize n :
  BaseCollector.validate_data (Code4rena.report_dict c date fs prize n) = true.
Proof. reflexivity. Qed.

Lemma built_truthy (r : gmap string pyval) : built w r → truthy r = true.
Proof. intros (k & c & page & date & n & _ & _ & ->). apply report_dict_truthy. Qed.

Lemma built_valid (r : gmap string pyval) : built w r → BaseCollector.validate_data r = true.
Proof. intros (k & c & page & date & n & _ & _ & ->). apply report_dict_valid. Qed.

(** ** The loop over the contests *)

Lemma collect_loop_cons_ok (c : contest) (rest : list contest)
    (acc : list (gmap string pyval)) (σ σ1 : state) (report : gmap string pyval) :
  Code4rena.collect_contest_data w c σ = (Ok report, σ1) →
  ∃ e σ2,
    Code4rena.collect_loop w json_dumps (c :: rest) acc σ
      = Code4rena.collect_loop w json_dumps rest (acc ++ [report]) σ2
    ∧ requests σ2 = S (requests σ)
    ∧ quiet σ σ2
    ∧ Code4rena.error_collecting c e ∈ trace σ2.
Proof.
  intros Hrun.
  pose proof (collect_contest_data_requests c σ) as Hreq.
  pose proof (quietly_collect_contest_data c σ) as Hq.
  pose proof (collect_contest_data_ok _ _ _ _ Hrun) as Hb.
  rewrite Hrun in Hreq, Hq. cbn in Hreq, Hq.
  destruct (save_raw_data_outcome Code4rena.name report (c_slug c) σ1)
    as (e & σ2 & Hsave & Hreq2 & Htr & _).
  pose proof (quietly_save_raw_data Code4rena.name report (c_slug c) σ1) as Hq2.
  rewrite Hsave in Hq2. cbn in Hq2.
  exists e. eexists. split; [|split; [|split]].
  - cbn [Code4rena.collect_loop]. unfold Code4rena.collect_try.
    rewrite Hrun, (built_truthy report) by (by eexists _, _).
    rewrite Hsave. unfold bind at 1. cbn [emit]. reflexivity.
  - cbn. congruence.
  - eapply quiet_trans; [exact Hq|]. eapply quiet_trans; [exact Hq2|].
    apply (quietly_log_error _ _ σ2).
  - cbn. apply elem_of_app. right. apply list_elem_of_singleton. reflexivity.
Qed.

Lemma collect_loop_cons_raise (c : contest) (rest : list contest)
    (acc : list (gmap string pyval)) (σ σ1 : state) (e : exn) :
  Code4rena.collect_contest_data w c σ = (Raise e, σ1) →
  ∃ σ2,
    Code4rena.collect_loop w json_dumps (c :: rest) acc σ
      = Code4rena.collect_loop w json_dumps rest acc σ2
    ∧ requests σ2 = S (requests σ)
    ∧ quiet σ σ2
    ∧ Code4rena.error_collecting c e ∈ trace σ2.
Proof.
  intros Hrun.
  pose proof (collect_contest_data_requests c σ) as Hreq.
  pose proof (quietly_collect_contest_data c σ) as Hq.
  rewrite Hrun in Hreq, Hq. cbn in Hreq, Hq.
  eexists. split; [|split; [|split]].
  - cbn [Code4rena.collect_loop]. unfold Code4rena.collect_try.
    rewrite Hrun. unfold bind at 1. cbn [emit]. reflexivity.
  - cbn. congruence.
  - eapply quiet_trans; [exact Hq|]. apply (quietly_log_error _ _ σ1).
  - cbn. apply elem_of_app. right. apply list_elem_of_singleton. reflexivity.
Qed.

(** The loop never raises: it returns the records it was given followed by
    at most one built record per contest, after one request per contest. *)
Lemma collect_loop_total (contests : list contest) :
  ∀ (acc : list (gmap string pyval)) (σ : state),
  ∃ out σ',
    Code4rena.collect_loop w json_dumps contests acc σ = (Ok (acc ++ out), σ')
    ∧ (List.length out ≤ List.length contests)%nat
    ∧ Forall (built w) out
    ∧ requests σ' = (requests σ + List.length contests)%nat
    ∧ quiet σ σ'.
Proof.
  induction contests as [|c rest IH]; intros acc σ.
  - exists [], σ. cbn. rewrite app_nil_r, Nat.add_0_r.
    split_and!; auto using quiet_refl.
  - destruct (Code4rena.collect_contest_data w c σ) as [[report|e] σ1] eqn:Hrun.
    + destruct (collect_loop_cons_ok c rest acc _ _ _ Hrun)
        as (e & σ2 & -> & Hreq & Hq & _).
      destruct (IH (acc ++ [report]) σ2) as (out & σ' & -> & Hlen & Hb & Hreq' & Hq').
      exists (report :: out), σ'. rewrite <- app_assoc. cbn.
      split_and!; [done | lia | | lia | by eapply quiet_trans].
      constructor; [|done]. eexists _, _. by eapply collect_contest_data_ok.
    + destruct (collect_loop_cons_raise c rest acc _ _ _ Hrun)
        as (σ2 & -> & Hreq & Hq & _).
      destruct (IH acc σ2) as (out & σ' & -> & Hlen & Hb & Hreq' & Hq').
      exists out, σ'. cbn.
      split_and!; [done | lia | done | lia | by eapply quiet_trans].
Qed.

(** A contest whose run of [collect_contest_data] returns has its record
    in what the loop returns, right after the records collected so far. *)
Lemma collect_loop_keeps (c : contest) (rest : list contest)
    (acc : list (gmap string pyval)) (σ σ1 : state) (report : gmap string pyval) :
  Code4rena.collect_contest_data w c σ = (Ok report, σ1) →
  ∃ more σ',
    Code4rena.collect_loop w json_dumps (c :: rest) acc σ
      = (Ok (acc ++ report :: more), σ').
Proof.
  intros Hrun.
  destruct (collect_loop_cons_ok c rest acc _ _ _ Hrun) as (e & σ2 & -> & _).
  destruct (collect_loop_total rest (acc ++ [report]) σ2) as (out & σ' & -> & _).
  exists out, σ'. by rewrite <- app_assoc.
Qed.

(** ** The contest list *)

Lemma slice_to_length {A} (limit : Z) (xs : list A) :
  (List.length (slice_to limit xs) ≤ List.length xs)%nat
  ∧ (0 ≤ limit → Z.of_nat (List.length (slice_to limit xs)) ≤ limit).
Proof.
  unfold slice_to. destruct (limit <? 0) eqn:Hneg; rewrite length_take.
  - apply Z.ltb_lt in Hneg. lia.
  - apply Z.ltb_ge in Hneg. lia.
Qed.

Lemma get_contests_loop_length (elements : list node) :
  ∀ acc contests,
    Code4rena.get_contests_loop elements acc = Ok contests →
    List.length contests = (List.length acc + List.length elements)%nat.
Proof.
  induction elements as [|el els IH]; intros acc contests; cbn.
  - intros [= <-]. lia.
  - destruct (Code4rena.contest_of el) as [c|e]; [|done].
    intros H. apply IH in H. rewrite H, length_app. cbn. lia.
Qed.

(** ** A whole run of [collect] *)

Lemma bind_emit {A} (ev : event) (k : unit → M A) (σ : state) :
  bind (emit ev) k σ = k tt (snd (emit ev σ)).
Proof. reflexivity. Qed.

Lemma collect_eq (limit : Z) (σ : state) :
  Code4rena.collect w json_dumps limit σ
  = match Code4rena.get_contests w limit
            (snd (emit (LogInfo Code4rena.name
                          ("Starting collection from Code4rena (limit: "
                           +:+ pretty limit +:+ ")")) σ)) with
    | (Ok contests, σa) =>
        match Code4rena.collect_loop w json_dumps contests [] σa with
        | (Ok reports, σb) =>
            (Ok reports,
             snd (emit (LogInfo Code4rena.name
                          ("Collected " +:+ pretty (List.length reports)
                           +:+ " reports")) σb))
        | (Raise e, σb) => (Raise e, σb)
        end
    | (Raise e, σa) => (Raise e, σa)
    end.
Proof.
  unfold Code4rena.collect. rewrite bind_emit. unfold bind at 1.
  destruct (Code4rena.get_contests w limit _) as [[contests|e] σa]; [|done].
  unfold bind at 1.
  destruct (Code4rena.collect_loop w json_dumps contests [] σa) as [[rs|e] σb]; done.
Qed.

Lemma get_contests_run (limit : Z) (σ : state) :
  Code4rena.get_contests w limit σ
  = (match http_get w (requests σ) Code4rena.contests_url with
     | Ok index =>
         Code4rena.get_contests_loop (Code4rena.contest_elements limit index) []
     | Raise e => Raise e
     end,
     snd (Code4rena.session_get w Code4rena.contests_url σ)).
Proof.
  unfold Code4rena.get_contests, bind, Code4rena.session_get, lift. cbn.
  by destruct (http_get w (requests σ) Code4rena.contests_url).
Qed.

(** [collect] raises exactly when fetching or reading the index does;
    otherwise it returns what the loop returns for the contests read from
    the index. *)
Lemma collect_run (limit : Z) (σ : state) :
  match http_get w (requests σ) Code4rena.contests_url with
  | Raise e => ∃ σ', Code4rena.collect w json_dumps limit σ = (Raise e, σ')
  | Ok index =>
      match Code4rena.get_contests_loop (Code4rena.contest_elements limit index) [] with
      | Raise e => ∃ σ', Code4rena.collect w json_dumps limit σ = (Raise e, σ')
      | Ok contests =>
          ∃ σa reports σb σ',
            requests σa = S (requests σ)
            ∧ quiet σ σa
            ∧ Code4rena.collect_loop w json_dumps contests [] σa = (Ok reports, σb)
            ∧ Code4rena.collect w json_dumps limit σ = (Ok reports, σ')
            ∧ quiet σb σ'
      end
  end.
Proof.
  rewrite collect_eq, get_contests_run.
  set (σ0 := snd (emit _ σ)).
  change (requests σ0) with (requests σ).
  set (σa := snd (Code4rena.session_get w Code4rena.contests_url σ0)).
  destruct (http_get w (requests σ) Code4rena.contests_url) as [index|e];
    [|by eexists].
  destruct (Code4rena.get_contests_loop _ []) as [contests|e]; [|by eexists].
  destruct (collect_loop_total contests [] σa) as (out & σb & Hloop & _).
  cbn [app] in Hloop. rewrite Hloop.
  exists σa, out, σb. eexists. split_and!.
  - reflexivity.
  - eapply quiet_trans;
      [|apply (quietly_session_get w Code4rena.contests_url σ0)].
    apply quietly_log_info.
  - exact Hloop.
  - reflexivity.
  - apply quietly_log_info.
Qed.

Lemma collect_ok_inv (limit : Z) (σ σ' : state) (reports : list (gmap string pyval)) :
  Code4rena.collect w json_dumps limit σ = (Ok reports, σ') →
  ∃ index contests σa σb,
    http_get w (requests σ) Code4rena.contests_url = Ok index
    ∧ Code4rena.get_contests_loop (Code4rena.contest_elements limit index) []
      = Ok contests
    ∧ requests σa = S (requests σ)
    ∧ quiet σ σa
    ∧ Code4rena.collect_loop w json_dumps contests [] σa = (Ok reports, σb)
    ∧ quiet σb σ'.
Proof.
  intros Hc. pose proof (collect_run limit σ) as Hrun.
  destruct (http_get w (requests σ) Code4rena.contests_url) as [index|e].
  - destruct (Code4rena.get_contests_loop _ []) as [contests|e] eqn:Hcs.
    + destruct Hrun as (σa & rs & σb & σ2 & ? & ? & ? & Hc' & ?).
      rewrite Hc in Hc'. injection Hc' as <- <-.
      by exists index, contests, σa, σb.
    + destruct Hrun as [σ2 Hc']. congruence.
  - destruct Hrun as [σ2 Hc']. congruence.
Qed.

(** ** Batches with failures *)

Lemma quiet_keeps_event (ev : event) (σ σ' : state) :
  quiet σ σ' → ev ∈ trace σ → ev ∈ trace σ'.
Proof.
  intros [_ _ _ _ [more ->] _] Hin. apply elem_of_app. by left.
Qed.

Lemma collect_loop_all_fetched (contests : list contest) :
  ∀ (acc : list (gmap string pyval)) (σ : state),
    (∀ i c, contests !! i = Some c →
       ∃ page n, http_get w (requests σ + i) (c_url c) = Ok page
                 ∧ Code4rena.extract_participants page = Ok n) →
    ∃ out σ',
      Code4rena.collect_loop w json_dumps contests acc σ = (Ok (acc ++ out), σ')
      ∧ Forall2 (λ jc r, built_from w jc.1 jc.2 r)
          (numbered (requests σ) contests) out
      ∧ quiet σ σ'.
Proof.
  induction contests as [|c rest IH]; intros acc σ Hall.
  - exists [], σ. cbn. rewrite app_nil_r. split_and!; auto using quiet_refl.
  - destruct (Hall 0%nat c eq_refl) as (page & n & Hget & Hn).
    rewrite Nat.add_0_r in Hget.
    destruct (collect_contest_data_fetched c σ page n Hget Hn)
      as (report & σ1 & Hrun & Hb).
    destruct (collect_loop_cons_ok c rest acc _ _ _ Hrun)
      as (e & σ2 & -> & Hreq & Hq & _).
    destruct (IH (acc ++ [report]) σ2) as (out & σ' & -> & Hout & Hq').
    { intros i c' Hi. rewrite Hreq. apply (Hall (S i) c') in Hi.
      by rewrite Nat.add_succ_r in Hi. }
    exists (report :: out), σ'. rewrite <- app_assoc. cbn.
    split_and!; [done | | by eapply quiet_trans].
    constructor; [exact Hb | by rewrite Hreq in Hout].
Qed.

Lemma collect_loop_one_failure (contests : list contest) :
  ∀ (k : nat) (ck : contest) (e : exn) (acc : list (gmap string pyval)) (σ : state),
    contests !! k = Some ck →
    http_get w (requests σ + k) (c_url ck) = Raise e →
    (∀ i c, contests !! i = Some c → i ≠ k →
       ∃ page n, http_get w (requests σ + i) (c_url c) = Ok page
                 ∧ Code4rena.extract_participants page = Ok n) →
    ∃ out σ',
      Code4rena.collect_loop w json_dumps contests acc σ = (Ok (acc ++ out), σ')
      ∧ Forall2 (λ jc r, built_from w jc.1 jc.2 r)
          (delete k (numbered (requests σ) contests)) out
      ∧ Code4rena.error_collecting ck e ∈ trace σ'.
Proof.
  induction contests as [|c rest IH]; intros k ck e acc σ Hk Hfail Hothers;
    [done|].
  destruct k as [|k].
  - injection Hk as ->. rewrite Nat.add_0_r in Hfail.
    destruct (collect_contest_data_fetch_fails ck σ e Hfail) as (σ1 & Hrun & _).
    destruct (collect_loop_cons_raise ck rest acc _ _ _ Hrun)
      as (σ2 & -> & Hreq & Hq & Hlog).
    destruct (collect_loop_all_fetched rest acc σ2) as (out & σ' & -> & Hout & Hq').
    { intros i c' Hi. rewrite Hreq.
      destruct (Hothers (S i) c' Hi) as (page & n & Hget & Hn); [lia|].
      rewrite Nat.add_succ_r in Hget. eauto. }
    exists out, σ'. cbn. split_and!; [done | by rewrite Hreq in Hout |].
    by eapply quiet_keeps_event.
  - destruct (Hothers 0%nat c eq_refl) as (page & n & Hget & Hn); [lia|].
    rewrite Nat.add_0_r in Hget.
    destruct (collect_contest_data_fetched c σ page n Hget Hn)
      as (report & σ1 & Hrun & Hb).
    destruct (collect_loop_cons_ok c rest acc _ _ _ Hrun)
      as (e' & σ2 & -> & Hreq & Hq & _).
    destruct (IH k ck e (acc ++ [report]) σ2) as (out & σ' & -> & Hout & Hlog).
    { exact Hk. }
    { rewrite Hreq. by rewrite Nat.add_succ_r in Hfail. }
    { intros i c' Hi Hne. rewrite Hreq.
      destruct (Hothers (S i) c' Hi) as (page' & n' & Hget' & Hn'); [lia|].
      rewrite Nat.add_succ_r in Hget'. eauto. }
    exists (report :: out), σ'. rewrite <- app_assoc. cbn.
    split_and!; [done | | done].
    constructor; [exact Hb | by rewrite Hreq in Hout].
Qed.

Lemma numbered_length (k : nat) (contests : list contest) :
  List.length (numbered k contests) = List.length contests.
Proof. revert k. induction contests; intros k; cbn; auto. Qed.

(** C5. A failure while one contest is processed is caught, logged with the
    slug of that contest, and the batch goes on: when the index yields the
    contests [contests], the detail request of the contest at position [k]
    raises [e] and every other contest is fetched and extracted, [collect]
    returns the records of the other contests, in order and each built from
    the answer to its own request, one fewer than there are contests, and
    the trace holds the error record naming the failed slug.  With five
    contests and [k] the third, these are the four other records. *)
Theorem collect_skips_failed_contest (limit : Z) (σ : state) (index : node)
    (contests : list contest) (k : nat) (ck : contest) (e : exn) :
  http_get w (requests σ) Code4rena.contests_url = Ok index →
  Code4rena.get_contests_loop (Code4rena.contest_elements limit index) []
    = Ok contests →
  contests !! k = Some ck →
  http_get w (S (requests σ) + k) (c_url ck) = Raise e →
  (∀ i c, contests !! i = Some c → i ≠ k →
     ∃ page n, http_get w (S (requests σ) + i) (c_url c) = Ok page
               ∧ Code4rena.extract_participants page = Ok n) →
  ∃ reports σ',
    Code4rena.collect w json_dumps limit σ = (Ok reports, σ')
    ∧ Forall2 (λ jc r, built_from w jc.1 jc.2 r)
        (delete k (numbered (S (requests σ)) contests)) reports
    ∧ List.length reports = (List.length contests - 1)%nat
    ∧ LogError "Code4rena"
        ("Error collecting " +:+ c_slug ck +:+ ": " +:+ exn_str e) ∈ trace σ'.
Proof.
  intros Hindex Hcs Hk Hfail Hothers.
  pose proof (collect_run limit σ) as Hrun. rewrite Hindex, Hcs in Hrun.
  destruct Hrun as (σa & reports & σb & σ' & Hreq & _ & Hloop & Hc & Hq).
  rewrite <- Hreq in Hfail, Hothers.
  destruct (collect_loop_one_failure contests k ck e [] σa Hk Hfail Hothers)
    as (out & σb' & Hloop' & Hout & Hlog).
  rewrite Hloop in Hloop'. cbn [app] in Hloop'. injection Hloop' as <- <-.
  exists reports, σ'. rewrite Hreq in Hout. split_and!; [done | done | |].
  - apply Forall2_length in Hout. rewrite <- Hout, length_delete.
    + by rewrite numbered_length.
    + apply lookup_lt_is_Some. rewrite numbered_length.
      apply lookup_lt_is_Some. eauto.
  - by eapply quiet_keeps_event.
Qed.

(** ** Titles, storage and the raw-data file *)

Lemma built_title (k : nat) (c : contest) (r : gmap string pyval) :
  built_from w k c r → r !! "title" = Some (VStr (c_title c)).
Proof. intros (page & date & n & _ & _ & ->). reflexivity. Qed.

(** C1, as the code has it: [collect] checks no title and never calls
    [validate_data].  Every record [collect_contest_data] builds is
    returned with the title of its contest as it stands, empty or not;
    every returned record has the four required keys; and [collect] writes
    no row to either table. *)
Theorem collect_returns_records_unchecked (limit : Z) (σ σ' : state)
    (reports : list (gmap string pyval)) :
  Code4rena.collect w json_dumps limit σ = (Ok reports, σ') →
  Forall (λ r, BaseCollector.validate_data r = true) reports
  ∧ audit_reports σ' = audit_reports σ
  ∧ findings σ' = findings σ
  ∧ (∀ c rest acc σ0 σ1 report,
       Code4rena.collect_contest_data w c σ0 = (Ok report, σ1) →
       report !! "title" = Some (VStr (c_title c))
       ∧ ∃ more σ2,
           Code4rena.collect_loop w json_dumps (c :: rest) acc σ0
           = (Ok (acc ++ report :: more), σ2)).
Proof.
  intros Hc.
  destruct (collect_ok_inv _ _ _ _ Hc)
    as (index & contests & σa & σb & _ & _ & _ & Hqa & Hloop & Hqb).
  destruct (collect_loop_total contests [] σa) as (out & σb' & Hloop' & _ & Hb & _ & Hq).
  rewrite Hloop in Hloop'. cbn [app] in Hloop'. injection Hloop' as <- <-.
  pose proof (quiet_trans _ _ _ Hqa (quiet_trans _ _ _ Hq Hqb)) as [Hr Hf _ _ _ _].
  split_and!; [| exact Hr | exact Hf |].
  - eapply Forall_impl; [exact Hb|]. intros r. apply built_valid.
  - intros c rest acc σ0 σ1 report Hrun. split.
    + eapply built_title, collect_contest_data_ok, Hrun.
    + by eapply collect_loop_keeps.
Qed.

(** C4, as the code has it: [save_raw_data] raises on every call and writes
    none of the record.  Either [open] raises and the files are as before,
    or [open] has created (or emptied) the file at the raw path and the
    lookup of [json] raises [NameError], leaving that file empty.  [collect]
    appends the record before it calls [save_raw_data] and catches the
    exception, so the record of a contest whose data was built is in what
    [collect] returns; after a run every file is as it was or empty. *)
Theorem save_raw_data_always_raises :
  (∀ name data filename σ,
     ∃ e σ',
       BaseCollector.save_raw_data w json_dumps name data filename σ = (Raise e, σ')
       ∧ ((∃ msg, e = OSError msg ∧ files σ' = files σ)
          ∨ (e = NameError "name 'json' is not defined"
             ∧ files σ'
               = <[BaseCollector.raw_path name filename (now_stamp w (clock_reads σ))
                   := EmptyString]> (files σ))))
  ∧ (∀ c rest acc σ σ1 report,
       Code4rena.collect_contest_data w c σ = (Ok report, σ1) →
       ∃ more σ',
         Code4rena.collect_loop w json_dumps (c :: rest) acc σ
         = (Ok (acc ++ report :: more), σ'))
  ∧ (∀ limit σ reports σ',
       Code4rena.collect w json_dumps limit σ = (Ok reports, σ') →
       ∀ path, files σ' !! path = files σ !! path
               ∨ files σ' !! path = Some EmptyString).
Proof.
  split_and!.
  - intros name data filename σ.
    destruct (save_raw_data_outcome name data filename σ)
      as (e & σ' & Hrun & _ & _ & [H|(He & _ & Hf)]); eauto 10.
  - intros c rest acc σ σ1 report Hrun. by eapply collect_loop_keeps.
  - intros limit σ reports σ' Hc.
    destruct (collect_ok_inv _ _ _ _ Hc)
      as (index & contests & σa & σb & _ & _ & _ & Hqa & Hloop & Hqb).
    destruct (collect_loop_total contests [] σa)
      as (out & σb' & Hloop' & _ & _ & _ & Hq).
    rewrite Hloop in Hloop'. injection Hloop' as _ <-.
    apply (quiet_files _ _ (quiet_trans _ _ _ Hqa (quiet_trans _ _ _ Hq Hqb))).
Qed.

(** C6, as the code has it: for a limit that is not negative, [collect]
    returns at most [limit] records, taken from the first [limit] contest
    cards of the index in page order; for every limit it returns at most as
    many records as the index has contest cards. *)
Theorem collect_at_most_limit (limit : Z) (σ σ' : state)
    (reports : list (gmap string pyval)) :
  Code4rena.collect w json_dumps limit σ = (Ok reports, σ') →
  ∃ index,
    http_get w (requests σ) Code4rena.contests_url = Ok index
    ∧ (List.length reports ≤ count_nodes is_contest_card index)%nat
    ∧ (0 ≤ limit →
       Z.of_nat (List.length reports) ≤ limit
       ∧ Code4rena.contest_elements limit index
         = take (Z.to_nat limit) (find_all "div" "contest-card" index)).
Proof.
  intros Hc.
  destruct (collect_ok_inv _ _ _ _ Hc)
    as (index & contests & σa & σb & Hindex & Hcs & _ & _ & Hloop & _).
  destruct (collect_loop_total contests [] σa)
    as (out & σb' & Hloop' & Hlen & _).
  rewrite Hloop in Hloop'. cbn [app] in Hloop'. injection Hloop' as <- _.
  apply get_contests_loop_length in Hcs. cbn in Hcs.
  unfold Code4rena.contest_elements in *.
  destruct (slice_to_length limit (find_all "div" "contest-card" index)) as [H1 H2].
  exists index. split_and!; [done | |].
  - unfold find_all in H1, Hcs. fold is_contest_card in H1, Hcs.
    rewrite filter_length_count in H1. lia.
  - intros Hpos. split; [specialize (H2 Hpos); lia|].
    unfold slice_to. destruct (limit <? 0) eqn:Hneg; [|done].
    apply Z.ltb_lt in Hneg. lia.
Qed.

End Collector.

(** ** Sample runs of the collector *)

(** C1, the claim refuted: the index lists one contest whose heading is
    blank; [collect] returns its record, whose title is the empty string. *)
Lemma collect_returns_untitled_record :
  ∃ r σ',
    Code4rena.collect Samples.world_untitled Samples.dumps 5 Samples.store0
    = (Ok [r], σ')
    ∧ r !! "title" = Some (VStr "")
    ∧ ¬ Spec.has_non_empty r "title".
Proof.
  eexists _, _. split_and!.
  - vm_compute. reflexivity.
  - reflexivity.
  - intros (v & Hv & Hne). vm_compute in Hv. injection Hv as <-.
    apply Hne. reflexivity.
Qed.

Lemma collect_returns_records_unchecked_witness :
  ∃ reports σ',
    Code4rena.collect Samples.world_two Samples.dumps 5 Samples.store0
    = (Ok reports, σ')
    ∧ Forall (λ r, BaseCollector.validate_data r = true) reports
    ∧ audit_reports σ' = []
    ∧ findings σ' = [].
Proof.
  destruct (Code4rena.collect Samples.world_two Samples.dumps 5 Samples.store0)
    as [[reports|e] σ'] eqn:Hrun.
  - exists reports, σ'. split; [reflexivity|].
    destruct (collect_returns_records_unchecked _ _ _ _ _ _ Hrun)
      as (Hv & Hr & Hf & _).
    split_and!; [exact Hv | exact Hr | exact Hf].
  - vm_compute in Hrun. discriminate Hrun.
Defined.

(** C4, the claim refuted: with the directory [data/raw] in place,
    [save_raw_data] raises and leaves an empty file at the raw path, where
    there was none. *)
Lemma save_raw_data_leaves_empty_file :
  ∃ σ',
    BaseCollector.save_raw_data Samples.world_two Samples.dumps "Code4rena"
      Samples.untitled_record "alpha" Samples.store_raw
    = (Raise (NameError "name 'json' is not defined"), σ')
    ∧ files Samples.store_raw
        !! "data/raw/Code4rena_alpha_20240101_000000.json" = None
    ∧ files σ' !! "data/raw/Code4rena_alpha_20240101_000000.json"
      = Some EmptyString.
Proof.
  eexists. split_and!.
  - vm_compute. reflexivity.
  - reflexivity.
  - reflexivity.
Qed.

Lemma save_raw_data_always_raises_witness :
  ∃ report σ1 more σ',
    Code4rena.collect_contest_data Samples.world_two
      {| c_slug := "alpha"; c_title := "Alpha";
         c_url := "https://code4rena.com/contests/alpha" |}
      Samples.store_raw = (Ok report, σ1)
    ∧ Code4rena.collect_loop Samples.world_two Samples.dumps
        [{| c_slug := "alpha"; c_title := "Alpha";
            c_url := "https://code4rena.com/contests/alpha" |}]
        [] Samples.store_raw
      = (Ok (report :: more), σ').
Proof.
  destruct (Code4rena.collect_contest_data Samples.world_two
      {| c_slug := "alpha"; c_title := "Alpha";
         c_url := "https://code4rena.com/contests/alpha" |}
      Samples.store_raw) as [[report|e] σ1] eqn:Hrun.
  - destruct (proj1 (proj2 (save_raw_data_always_raises Samples.world_two
                              Samples.dumps)) _ [] [] _ _ _ Hrun)
      as (more & σ' & Hloop).
    exists report, σ1, more, σ'. split; [reflexivity | exact Hloop].
  - vm_compute in Hrun. discriminate Hrun.
Defined.

(** C6, the claim refuted: with limit [-1] and two contest cards the slice
    keeps the first card, and [collect] returns one record, which is more
    than the limit. *)
Lemma collect_negative_limit_returns_more :
  ∃ reports σ',
    Code4rena.collect Samples.world_two Samples.dumps (-1) Samples.store0
    = (Ok reports, σ')
    ∧ List.length reports = 1%nat
    ∧ ¬ (Z.of_nat (List.length reports) ≤ -1).
Proof.
  eexists _, _. split_and!.
  - vm_compute. reflexivity.
  - reflexivity.
  - cbn. lia.
Qed.

Lemma collect_at_most_limit_witness :
  ∃ reports σ',
    Code4rena.collect Samples.world_two Samples.dumps 1 Samples.store0
    = (Ok reports, σ')
    ∧ (List.length reports ≤ 2)%nat
    ∧ Z.of_nat (List.length reports) ≤ 1.
Proof.
  destruct (Code4rena.collect Samples.world_two Samples.dumps 1 Samples.store0)
    as [[reports|e] σ'] eqn:Hrun.
  - exists reports, σ'. split; [reflexivity|].
    destruct (collect_at_most_limit _ _ _ _ _ _ Hrun)
      as (index & Hindex & Hcards & Hlim).
    injection Hindex as <-. split; [exact Hcards|].
    apply Hlim. lia.
  - vm_compute in Hrun. discriminate Hrun.
Defined.

Lemma collect_skips_failed_contest_witness :
  ∃ reports σ',
    Code4rena.collect Samples.world_five Samples.dumps 5 Samples.store0
    = (Ok reports, σ')
    ∧ List.length reports = 4%nat
    ∧ LogError "Code4rena" "Error collecting c3: Connection reset by peer"
      ∈ trace σ'.
Proof.
  pose (mk := λ slug title,
          {| c_slug := slug; c_title := title;
             c_url := "https://code4rena.com/contests/" +:+ slug |}).
  destruct (collect_skips_failed_contest Samples.world_five Samples.dumps 5
              Samples.store0
              (Samples.document
                 [Samples.card "c1" "One"; Samples.card "c2" "Two";
                  Samples.card "c3" "Three"; Samples.card "c4" "Four";
                  Samples.card "c5" "Five"])
              [mk "c1" "One"; mk "c2" "Two"; mk "c3" "Three"; mk "c4" "Four";
               mk "c5" "Five"]
              2%nat (mk "c3" "Three") (ClientError "Connection reset by peer"))
    as (reports & σ' & Hrun & _ & Hlen & Hlog).
  - reflexivity.
  - vm_compute. reflexivity.
  - reflexivity.
  - reflexivity.
  - intros i c Hi Hne. exists Samples.page_audit, 42.
    do 5 (destruct i as [|i]; [try (injection Hi as <-); done|]).
    discriminate Hi.
  - exists reports, σ'. split_and!; [exact Hrun | exact Hlen | exact Hlog].
Defined.

(** ** The scheduler loop *)

Section Scheduler.

Context (w : World node).
Context (json_dumps : gmap string pyval → string).

Lemma quietly_collect_loop (contests : list contest) (acc : list (gmap string pyval)) :
  quietly (Code4rena.collect_loop w json_dumps contests acc).
Proof.
  intros σ.
  destruct (collect_loop_total w json_dumps contests acc σ)
    as (out & σ' & -> & _ & _ & _ & Hq).
  exact Hq.
Qed.

(** A run of [collect] never sleeps. *)
Lemma quietly_collect (limit : Z) : quietly (Code4rena.collect w json_dumps limit).
Proof.
  unfold Code4rena.collect, Code4rena.get_contests.
  apply quietly_bind; [auto with quiet | intros _].
  apply quietly_bind; [quiet_steps | intros contests].
  apply quietly_bind; [apply quietly_collect_loop | intros reports].
  quiet_steps.
Qed.

Lemma iteration_eq (σ : state) :
  Run.iteration w json_dumps σ
  = match Code4rena.collect w json_dumps 5 σ with
    | (Ok _, σc) => Run.sleep 3600 σc
    | (Raise e, σc) =>
        (Run.print ("Collector error: " +:+ exn_str e) ;;; Run.sleep 60) σc
    end.
Proof.
  unfold Run.iteration, try_except, bind.
  by destruct (Code4rena.collect w json_dumps 5 σ) as [[reports|e] σc].
Qed.

(** One pass of the loop never raises, and ends in the sleep that the
    outcome of its [collect] selects. *)
Lemma iteration_outcome (σ : state) :
  fst (Run.iteration w json_dumps σ) = Ok tt
  ∧ match Code4rena.collect w json_dumps 5 σ with
    | (Ok _, σc) =>
        trace (snd (Run.iteration w json_dumps σ)) = trace σc ++ [Sleep 3600]
    | (Raise e, σc) =>
        trace (snd (Run.iteration w json_dumps σ))
        = trace σc ++ [Print ("Collector error: " +:+ exn_str e); Sleep 60]
    end.
Proof.
  rewrite iteration_eq.
  destruct (Code4rena.collect w json_dumps 5 σ) as [[reports|e] σc]; cbn.
  - done.
  - by rewrite <- app_assoc.
Qed.

Lemma iteration_sleeps (σ : state) :
  ∃ s, (s = 3600 ∨ s = 60)
       ∧ sleeps (trace (snd (Run.iteration w json_dumps σ)))
         = sleeps (trace σ) ++ [s].
Proof.
  destruct (iteration_outcome σ) as [_ Htr].
  pose proof (quietly_collect 5 σ) as Hq.
  destruct (Code4rena.collect w json_dumps 5 σ) as [[reports|e] σc];
    cbn in Hq; rewrite Htr, sleeps_app, (quiet_sleeps _ _ Hq).
  - exists 3600. auto.
  - exists 60. auto.
Qed.

(** The [while True] loop by itself has no exit: once entered, it is still
    looping after any number of passes.  Each pass adds exactly one sleep:
    3600 seconds when its [collect] returned, and, after printing the
    error, 60 seconds when [collect] raised.  A pass is the same
    computation on the current store whatever happened in earlier
    passes. *)
Lemma collector_loop_never_exits (fuel : nat) (σ : state) :
  (∃ σ' intervals,
     Run.collector_loop w json_dumps fuel σ = (Run.Looping, σ')
     ∧ sleeps (trace σ') = sleeps (trace σ) ++ intervals
     ∧ List.length intervals = fuel
     ∧ Forall (λ s, s = 3600 ∨ s = 60) intervals)
  ∧ (fst (Run.iteration w json_dumps σ) = Ok tt
     ∧ match Code4rena.collect w json_dumps 5 σ with
       | (Ok _, σc) =>
           trace (snd (Run.iteration w json_dumps σ)) = trace σc ++ [Sleep 3600]
           ∧ sleeps (trace σc) = sleeps (trace σ)
       | (Raise e, σc) =>
           trace (snd (Run.iteration w json_dumps σ))
           = trace σc ++ [Print ("Collector error: " +:+ exn_str e); Sleep 60]
           ∧ sleeps (trace σc) = sleeps (trace σ)
       end)
  ∧ Run.collector_loop w json_dumps (S fuel) σ
    = Run.collector_loop w json_dumps fuel (snd (Run.iteration w json_dumps σ)).
Proof.
  split_and!.
  - revert σ. induction fuel as [|fuel IH]; intros σ.
    + exists σ, []. cbn. by rewrite app_nil_r.
    + cbn [Run.collector_loop].
      destruct (iteration_outcome σ) as [Hok _].
      destruct (iteration_sleeps σ) as (s & Hs & Hsl).
      destruct (Run.iteration w json_dumps σ) as [r σ1]. cbn in Hok, Hsl.
      subst r.
      destruct (IH σ1) as (σ' & ivs & -> & Htr & Hlen & Hall).
      exists σ', (s :: ivs). split_and!; [done | | cbn; lia | by constructor].
      rewrite Htr, Hsl, <- app_assoc. reflexivity.
  - apply iteration_outcome.
  - destruct (iteration_outcome σ) as [_ Htr].
    pose proof (quietly_collect 5 σ) as Hq.
    destruct (Code4rena.collect w json_dumps 5 σ) as [[reports|e] σc];
      cbn in Hq; split; try exact Htr; apply (quiet_sleeps _ _ Hq).
  - cbn [Run.collector_loop].
    destruct (iteration_outcome σ) as [Hok _].
    destruct (Run.iteration w json_dumps σ) as [r σ1]. cbn in Hok. by subst r.
Qed.

(** C8, at the failing call: [start_collectors] never reaches its loop.
    [Code4renaCollector] leaves the abstract method [parse_report] of
    [BaseCollector] without implementation, so creating the collector
    raises [TypeError]; the statement stands before the loop and outside
    its [try], and the coroutine ends there, whatever the number of passes
    allowed: no request is issued, nothing is slept and the store is as it
    was. *)
Theorem start_collectors_raises_before_loop (fuel : nat) (σ : state) :
  Run.start_collectors w json_dumps fuel σ
  = (Run.Escaped
       (TypeError ("Can't instantiate abstract class Code4renaCollector "
                   +:+ "with abstract method parse_report")),
     σ).
Proof. reflexivity. Qed.

End Scheduler.

(** ** The API *)

Section Api.

Context (db_get_reports : option string → Z → M (list AuditReportRow)).

(** C9. [GET /reports] accepts a limit from 1 to 100 and takes 10 when it
    is omitted: a request whose limit is below 1 or above 100 is rejected
    before the handler runs, so the store is as before; a request without
    limit is served as the request with limit 10; a limit within the bounds
    is handed to the handler as given. *)
Theorem get_reports_limit_bounds (platform : option string) (σ : state) :
  (∀ l, l < 1 ∨ 100 < l →
     Routes.serve_get_reports db_get_reports platform (Some l) σ
     = (Routes.ValidationRejected, σ))
  ∧ Routes.serve_get_reports db_get_reports platform None σ
    = Routes.serve_get_reports db_get_reports platform (Some 10) σ
  ∧ (∀ l, 1 ≤ l ≤ 100 →
     Routes.serve_get_reports db_get_reports platform (Some l) σ
     = match Routes.get_reports db_get_reports platform l σ with
       | (Ok reports, σ') => (Routes.Served reports, σ')
       | (Raise e, σ') => (Routes.ServerError e, σ')
       end).
Proof.
  unfold Routes.serve_get_reports, Routes.Query. split_and!.
  - intros l Hl.
    destruct (1 <=? l) eqn:H1; destruct (l <=? 100) eqn:H2; cbn; try done.
    apply Z.leb_le in H1, H2. lia.
  - reflexivity.
  - intros l [H1 H2]. apply Z.leb_le in H1, H2. by rewrite H1, H2.
Qed.

End Api.

Lemma get_reports_limit_bounds_witness :
  Routes.serve_get_reports (λ _ _, ret []) None (Some 101) Samples.store0
  = (Routes.ValidationRejected, Samples.store0)
  ∧ Routes.serve_get_reports (λ _ _, ret []) None (Some 100) Samples.store0
    = (Routes.Served [], Samples.store0).
Proof.
  split.
  - apply (proj1 (get_reports_limit_bounds (λ _ _, ret []) None Samples.store0)).
    right. lia.
  - rewrite (proj2 (proj2 (get_reports_limit_bounds (λ _ _, ret []) None
                             Samples.store0)) 100) by lia.
    reflexivity.
Defined.

(** C10. [POST /collect] answers ["Collection started for "] followed by
    the platform and does nothing else: the store after the call is the
    store before it, so it issues no request, adds no row to either table,
    touches no file and leaves the trace as it was. *)
Theorem trigger_collection_changes_nothing (platform : string) (σ : state) :
  Routes.trigger_collection platform σ
  = (Ok {["message" := "Collection started for " +:+ platform]}, σ).
Proof. reflexivity. Qed.

(** * Further properties of the collector *)

(** ** The contest list *)

Lemma slice_to_prefix {A} (limit : Z) (xs : list A) :
  slice_to limit xs `prefix_of` xs.
Proof. unfold slice_to. destruct (limit <? 0); apply prefix_take. Qed.

(** The cards [get_contests] considers are a prefix of the contest cards of
    the page, for every limit: a limit that is not negative keeps the first
    [limit] cards (all of them when there are fewer), a negative limit
    drops the last [-limit] cards (all of them when there are fewer). *)
Theorem contest_elements_prefix (limit : Z) (soup : node) :
  let cards := find_all "div" "contest-card" soup in
  Code4rena.contest_elements limit soup `prefix_of` cards
  ∧ List.length (Code4rena.contest_elements limit soup)
    = if limit <? 0
      then (List.length cards - Z.to_nat (- limit))%nat
      else Nat.min (Z.to_nat limit) (List.length cards).
Proof.
  intros cards. split; [apply slice_to_prefix|].
  unfold Code4rena.contest_elements, slice_to. fold cards.
  destruct (limit <? 0) eqn:Hneg; rewrite length_take.
  - apply Z.ltb_lt in Hneg. lia.
  - reflexivity.
Qed.

Lemma get_contests_loop_spec (elements : list node) :
  ∀ acc,
    match Code4rena.get_contests_loop elements acc with
    | Ok contests =>
        ∃ more, contests = acc ++ more ∧ Forall2 read_from_card elements more
    | Raise e =>
        e = AttributeError "'NoneType' object has no attribute 'text'"
        ∧ Exists (λ el, find "h3" el = None) elements
    end.
Proof.
  induction elements as [|el els IH]; intros acc; cbn.
  - exists []. by rewrite app_nil_r.
  - unfold Code4rena.contest_of.
    destruct (find "h3" el) as [h3|] eqn:Hh3.
    + specialize (IH (acc ++ [{| c_slug := get "data-slug" "" el;
                                c_title := strip (text h3);
                                c_url := Code4rena.base_url +:+ "/contests/"
                                         +:+ get "data-slug" "" el |}])).
      destruct (Code4rena.get_contests_loop els _) as [contests|e].
      * destruct IH as (more & -> & Hmore). eexists (_ :: more).
        rewrite <- app_assoc. split; [reflexivity|].
        constructor; [|exact Hmore]. split_and!; [done | done |].
        by exists h3.
      * destruct IH as [-> Hex]. split; [done|]. by apply Exists_cons_tl.
    + split; [done|]. by apply Exists_cons_hd.
Qed.

Lemma get_contests_loop_outcome (elements : list node) :
  match Code4rena.get_contests_loop elements [] with
  | Ok contests =>
      Forall2 read_from_card elements contests
      ∧ Forall (λ el, is_Some (find "h3" el)) elements
  | Raise e =>
      e = AttributeError "'NoneType' object has no attribute 'text'"
      ∧ Exists (λ el, find "h3" el = None) elements
  end.
Proof.
  pose proof (get_contests_loop_spec elements []) as H.
  destruct (Code4rena.get_contests_loop elements []) as [contests|e]; [|done].
  destruct H as (more & -> & Hmore). cbn [app]. split; [done|].
  clear -Hmore. induction Hmore as [|el c els cs (_ & _ & h3 & Hh3 & _) _ IH];
    constructor; [by exists h3 | done].
Qed.

(** [get_contests] reads the cards all or nothing.  When every card has a
    heading the contests come one per card, in page order, each with the
    slug of its card (empty when the card has no [data-slug]), the trimmed
    text of its first [h3] and the URL made from the slug.  When a card has
    no heading the whole list is lost to an [AttributeError]. *)
Theorem get_contests_all_or_nothing (elements : list node) :
  match Code4rena.get_contests_loop elements [] with
  | Ok contests =>
      Forall2 read_from_card elements contests
      ∧ Forall (λ el, is_Some (find "h3" el)) elements
  | Raise e =>
      e = AttributeError "'NoneType' object has no attribute 'text'"
      ∧ Exists (λ el, find "h3" el = None) elements
  end.
Proof. apply get_contests_loop_outcome. Qed.

(** ** What a run logs, requests and keeps *)

Section CollectorLog.

Context (w : World node).
Context (json_dumps : gmap string pyval → string).

Lemma collect_contest_data_trace (c : contest) (σ : state) :
  trace (snd (Code4rena.collect_contest_data w c σ)) = trace σ.
Proof.
  unfold Code4rena.collect_contest_data, bind, Code4rena.session_get,
    BaseCollector.read_clock, lift, ret. cbn.
  destruct (http_get w (requests σ) (c_url c)) as [page|e]; cbn; [|done].
  destruct (Code4rena.extract_participants page); done.
Qed.

(** One turn of the loop: one request, one error record, and the list of
    records either as it was or longer by the record built for the
    contest. *)
Lemma collect_loop_turn (c : contest) (rest : list contest)
    (acc : list (gmap string pyval)) (σ : state) :
  ∃ acc' e σ2,
    Code4rena.collect_loop w json_dumps (c :: rest) acc σ
    = Code4rena.collect_loop w json_dumps rest acc' σ2
    ∧ trace σ2 = trace σ ++ [Code4rena.error_collecting c e]
    ∧ requests σ2 = S (requests σ)
    ∧ (acc' = acc ∨ ∃ r, acc' = acc ++ [r] ∧ built_from w (requests σ) c r).
Proof.
  pose proof (collect_contest_data_trace c σ) as Htr.
  pose proof (collect_contest_data_requests w c σ) as Hreq.
  destruct (Code4rena.collect_contest_data w c σ) as [[report|e] σ1] eqn:Hrun;
    cbn in Htr, Hreq.
  - pose proof (collect_contest_data_ok _ _ _ _ _ Hrun) as Hb.
    destruct (save_raw_data_outcome w json_dumps Code4rena.name report
                (c_slug c) σ1) as (e & σ2 & Hsave & Hreq2 & Htr2 & _).
    exists (acc ++ [report]), e. eexists. split_and!.
    + cbn [Code4rena.collect_loop]. unfold Code4rena.collect_try.
      rewrite Hrun, (built_truthy w report) by (by eexists _, _).
      rewrite Hsave. unfold bind at 1. cbn [emit]. reflexivity.
    + cbn. congruence.
    + cbn. congruence.
    + right. by exists report.
  - exists acc, e. eexists. split_and!.
    + cbn [Code4rena.collect_loop]. unfold Code4rena.collect_try.
      rewrite Hrun. unfold bind at 1. cbn [emit]. reflexivity.
    + cbn. congruence.
    + cbn. congruence.
    + by left.
Qed.

Lemma collect_loop_account (contests : list contest) :
  ∀ (acc : list (gmap string pyval)) (σ : state),
  ∃ out errs chosen σ',
    Code4rena.collect_loop w json_dumps contests acc σ = (Ok (acc ++ out), σ')
    ∧ trace σ' = trace σ ++ errs
    ∧ Forall2 logged_for contests errs
    ∧ requests σ' = (requests σ + List.length contests)%nat
    ∧ chosen `sublist_of` contests
    ∧ Forall2 (λ c r, ∃ k, built_from w k c r) chosen out.
Proof.
  induction contests as [|c rest IH]; intros acc σ.
  - exists [], [], [], σ. cbn. rewrite !app_nil_r, Nat.add_0_r.
    split_and!; done.
  - destruct (collect_loop_turn c rest acc σ)
      as (acc' & e & σ2 & -> & Htr & Hreq & Hacc).
    destruct (IH acc' σ2) as (out & errs & chosen & σ' & -> & Htr' & Herrs
                              & Hreq' & Hsub & Hout).
    destruct Hacc as [->|(r & -> & Hb)].
    + exists out, (Code4rena.error_collecting c e :: errs), chosen, σ'.
      split_and!; try done.
      * rewrite Htr', Htr, <- app_assoc. reflexivity.
      * constructor; [by exists e | done].
      * cbn. lia.
      * by apply sublist_cons.
    + exists (r :: out), (Code4rena.error_collecting c e :: errs), (c :: chosen), σ'.
      split_and!.
      * by rewrite <- app_assoc.
      * rewrite Htr', Htr, <- app_assoc. reflexivity.
      * constructor; [by exists e | done].
      * cbn. lia.
      * by apply sublist_skip.
      * constructor; [by eexists | done].
Qed.

(** The whole of a run, by how the index request and the reading of the
    cards turn out. *)
Lemma collect_account (limit : Z) (σ : state) :
  let start := LogInfo "Code4rena"
                 ("Starting collection from Code4rena (limit: "
                  +:+ pretty limit +:+ ")") in
  let aborted e :=
    ∃ σ', Code4rena.collect w json_dumps limit σ = (Raise e, σ')
          ∧ requests σ' = S (requests σ)
          ∧ trace σ' = trace σ ++ [start]
          ∧ clock_reads σ' = clock_reads σ ∧ files σ' = files σ in
  match http_get w (requests σ) Code4rena.contests_url with
  | Raise e => aborted e
  | Ok index =>
      match Code4rena.get_contests_loop (Code4rena.contest_elements limit index) [] with
      | Raise e => aborted e
      | Ok contests =>
          ∃ reports errs chosen σ',
            Code4rena.collect w json_dumps limit σ = (Ok reports, σ')
            ∧ trace σ'
              = trace σ ++ start :: errs
                ++ [LogInfo "Code4rena"
                      ("Collected " +:+ pretty (List.length reports) +:+ " reports")]
            ∧ Forall2 logged_for contests errs
            ∧ requests σ' = (requests σ + 1 + List.length contests)%nat
            ∧ chosen `sublist_of` contests
            ∧ Forall2 (λ c r, ∃ k, built_from w k c r) chosen reports
      end
  end.
Proof.
  intros start aborted. subst aborted. cbn beta.
  rewrite collect_eq, get_contests_run.
  set (σ0 := snd (emit _ σ)).
  change (requests σ0) with (requests σ).
  set (σa := snd (Code4rena.session_get w Code4rena.contests_url σ0)).
  destruct (http_get w (requests σ) Code4rena.contests_url) as [index|e];
    [|by eexists].
  destruct (Code4rena.get_contests_loop _ []) as [contests|e]; [|by eexists].
  destruct (collect_loop_account contests [] σa)
    as (out & errs & chosen & σb & Hloop & Htr & Herrs & Hreq & Hsub & Hout).
  cbn [app] in Hloop. rewrite Hloop.
  exists out, errs, chosen. eexists. split_and!; try done.
  - cbn. rewrite Htr. cbn. rewrite <- !app_assoc. reflexivity.
  - cbn. rewrite Hreq. cbn. lia.
Qed.

End CollectorLog.

Section CollectorFacts.

Context (w : World node).
Context (json_dumps : gmap string pyval → string).

(** A returning run logs the start message, then exactly one error record
    per contest read from the index, in page order, and last the number of
    records it returns.  The contests whose record is returned have their
    error record too, since [save_raw_data] raises for them; the message
    about saved raw data is never logged. *)
Theorem collect_logs_error_per_contest (limit : Z) (σ σ' : state)
    (reports : list (gmap string pyval)) :
  Code4rena.collect w json_dumps limit σ = (Ok reports, σ') →
  ∃ index contests errs,
    http_get w (requests σ) Code4rena.contests_url = Ok index
    ∧ Code4rena.get_contests_loop (Code4rena.contest_elements limit index) []
      = Ok contests
    ∧ Forall2 logged_for contests errs
    ∧ trace σ'
      = trace σ
        ++ LogInfo "Code4rena"
             ("Starting collection from Code4rena (limit: " +:+ pretty limit +:+ ")")
           :: errs
        ++ [LogInfo "Code4rena"
              ("Collected " +:+ pretty (List.length reports) +:+ " reports")].
Proof.
  intros Hc. pose proof (collect_account w json_dumps limit σ) as H. cbn zeta in H.
  destruct (http_get w (requests σ) Code4rena.contests_url) as [index|e].
  - destruct (Code4rena.get_contests_loop _ []) as [contests|e] eqn:Hcs.
    + destruct H as (rs & errs & chosen & σ2 & Hc' & Htr & Herrs & _).
      rewrite Hc in Hc'. injection Hc' as <- <-.
      by exists index, contests, errs.
    + destruct H as (σ2 & Hc' & _). congruence.
  - destruct H as (σ2 & Hc' & _). congruence.
Qed.

(** A run issues one request for the index and one per contest read from
    it, whether the contest succeeds or not, and none when the index cannot
    be read: with a limit that is not negative, at most [1 + limit]
    requests. *)
Theorem collect_request_count (limit : Z) (σ : state) :
  match Code4rena.collect w json_dumps limit σ with
  | (Ok reports, σ') =>
      ∃ index contests,
        http_get w (requests σ) Code4rena.contests_url = Ok index
        ∧ Code4rena.get_contests_loop (Code4rena.contest_elements limit index) []
          = Ok contests
        ∧ requests σ' = (requests σ + 1 + List.length contests)%nat
        ∧ (List.length reports ≤ List.length contests)%nat
        ∧ (0 ≤ limit → (requests σ' ≤ requests σ + 1 + Z.to_nat limit)%nat)
  | (Raise e, σ') => requests σ' = S (requests σ)
  end.
Proof.
  pose proof (collect_account w json_dumps limit σ) as H. cbn zeta in H.
  destruct (http_get w (requests σ) Code4rena.contests_url) as [index|e].
  - destruct (Code4rena.get_contests_loop _ []) as [contests|e] eqn:Hcs.
    + destruct H as (rs & errs & chosen & σ2 & -> & _ & _ & Hreq & Hsub & Hout).
      exists index, contests. split_and!; try done.
      * apply Forall2_length in Hout. apply sublist_length in Hsub. lia.
      * intros Hpos. apply get_contests_loop_length in Hcs. cbn in Hcs.
        unfold Code4rena.contest_elements in Hcs.
        destruct (slice_to_length limit (find_all "div" "contest-card" index))
          as [_ Hle]. specialize (Hle Hpos). lia.
    + by destruct H as (σ2 & -> & ? & _).
  - by destruct H as (σ2 & -> & ? & _).
Qed.

(** The records of a run follow the page: they belong, one each and in
    order, to a subsequence of the contests read from the index, and each
    carries the platform name and the title and URL of its contest. *)
Theorem collect_preserves_page_order (limit : Z) (σ σ' : state)
    (reports : list (gmap string pyval)) :
  Code4rena.collect w json_dumps limit σ = (Ok reports, σ') →
  ∃ index contests chosen,
    http_get w (requests σ) Code4rena.contests_url = Ok index
    ∧ Code4rena.get_contests_loop (Code4rena.contest_elements limit index) []
      = Ok contests
    ∧ chosen `sublist_of` contests
    ∧ Forall2 (λ c r, r !! "platform" = Some (VStr "Code4rena")
                      ∧ r !! "title" = Some (VStr (c_title c))
                      ∧ r !! "url" = Some (VStr (c_url c)))
        chosen reports.
Proof.
  intros Hc. pose proof (collect_account w json_dumps limit σ) as H. cbn zeta in H.
  destruct (http_get w (requests σ) Code4rena.contests_url) as [index|e].
  - destruct (Code4rena.get_contests_loop _ []) as [contests|e] eqn:Hcs.
    + destruct H as (rs & errs & chosen & σ2 & Hc' & _ & _ & _ & Hsub & Hout).
      rewrite Hc in Hc'. injection Hc' as <- <-.
      exists index, contests, chosen. split_and!; try done.
      eapply Forall2_impl; [exact Hout|].
      intros c r (k & page & date & n & _ & _ & ->). by split_and!.
    + destruct H as (σ2 & Hc' & _). congruence.
  - destruct H as (σ2 & Hc' & _). congruence.
Qed.

(** [collect] raises exactly when the index request raises or one of the
    cards it considers has no heading; what happens to the single contests
    never makes it raise. *)
Theorem collect_raises_iff (limit : Z) (σ : state) :
  is_ok (fst (Code4rena.collect w json_dumps limit σ)) = false
  ↔ (∃ e, http_get w (requests σ) Code4rena.contests_url = Raise e)
    ∨ (∃ index, http_get w (requests σ) Code4rena.contests_url = Ok index
                ∧ Exists (λ el, find "h3" el = None)
                    (Code4rena.contest_elements limit index)).
Proof.
  pose proof (collect_account w json_dumps limit σ) as H. cbn zeta in H.
  destruct (http_get w (requests σ) Code4rena.contests_url) as [index|e].
  - pose proof (get_contests_loop_outcome
                  (Code4rena.contest_elements limit index)) as Hall.
    destruct (Code4rena.get_contests_loop _ []) as [contests|e] eqn:Hcs.
    + destruct H as (rs & errs & chosen & σ2 & -> & _). cbn.
      split; [done|]. intros [[e He]|(index' & Hi & Hex)]; [discriminate He|].
      injection Hi as <-.
      destruct Hall as [_ Hall]. apply Exists_exists in Hex as (el & Hel & Hnone).
      rewrite Forall_forall in Hall. destruct (Hall el Hel) as [h3 Hh3].
      congruence.
    + destruct H as (σ2 & -> & _). cbn. split; [|done].
      intros _. right. exists index. by destruct Hall.
  - destruct H as (σ2 & -> & _). cbn. split; [|done]. intros _. left. by exists e.
Qed.

(** A run that raises has issued the index request only and logged the
    start message only: no contest page is requested and the clock and the
    files are untouched. *)
Theorem collect_abort_footprint (limit : Z) (σ σ' : state) (e : exn) :
  Code4rena.collect w json_dumps limit σ = (Raise e, σ') →
  requests σ' = S (requests σ)
  ∧ clock_reads σ' = clock_reads σ
  ∧ files σ' = files σ
  ∧ trace σ'
    = trace σ
      ++ [LogInfo "Code4rena"
            ("Starting collection from Code4rena (limit: " +:+ pretty limit +:+ ")")].
Proof.
  intros Hc. pose proof (collect_account w json_dumps limit σ) as H. cbn zeta in H.
  destruct (http_get w (requests σ) Code4rena.contests_url) as [index|e0].
  - destruct (Code4rena.get_contests_loop _ []) as [contests|e0].
    + destruct H as (rs & errs & chosen & σ2 & Hc' & _). congruence.
    + destruct H as (σ2 & Hc' & ? & ? & ? & ?). rewrite Hc in Hc'.
      by injection Hc' as <- <-.
  - destruct H as (σ2 & Hc' & ? & ? & ? & ?). rewrite Hc in Hc'.
    by injection Hc' as <- <-.
Qed.

(** With limit 0, or an index without contest cards, a run returns the
    empty list after the index request alone and logs that it collected 0
    reports. *)
Theorem collect_nothing_to_collect (limit : Z) (σ : state) (index : node) :
  http_get w (requests σ) Code4rena.contests_url = Ok index →
  limit = 0 ∨ find_all "div" "contest-card" index = [] →
  ∃ σ',
    Code4rena.collect w json_dumps limit σ = (Ok [], σ')
    ∧ requests σ' = S (requests σ)
    ∧ trace σ'
      = trace σ
        ++ [LogInfo "Code4rena"
              ("Starting collection from Code4rena (limit: " +:+ pretty limit +:+ ")");
            LogInfo "Code4rena" "Collected 0 reports"].
Proof.
  intros Hindex Hnone.
  assert (Code4rena.contest_elements limit index = []) as Hels.
  { unfold Code4rena.contest_elements. destruct Hnone as [-> | ->]; [done|].
    unfold slice_to. destruct (limit <? 0); apply take_nil. }
  pose proof (collect_account w json_dumps limit σ) as H. cbn zeta in H.
  rewrite Hindex, Hels in H. cbn in H.
  destruct H as (rs & errs & chosen & σ2 & Hc & Htr & Herrs & Hreq & Hsub & Hout).
  apply Forall2_nil_inv_l in Herrs as ->.
  apply sublist_nil_r in Hsub as ->. apply Forall2_nil_inv_l in Hout as ->.
  exists σ2. split_and!; [done | lia | exact Htr].
Qed.

End CollectorFacts.

Lemma collect_logs_error_per_contest_witness :
  ∃ reports σ',
    Code4rena.collect Samples.world_two Samples.dumps 5 Samples.store_raw
    = (Ok reports, σ')
    ∧ List.length reports = 2%nat
    ∧ trace σ'
      = [LogInfo "Code4rena" "Starting collection from Code4rena (limit: 5)";
         LogError "Code4rena" "Error collecting alpha: name 'json' is not defined";
         LogError "Code4rena" "Error collecting beta: name 'json' is not defined";
         LogInfo "Code4rena" "Collected 2 reports"].
Proof.
  destruct (Code4rena.collect Samples.world_two Samples.dumps 5 Samples.store_raw)
    as [[reports|e] σ'] eqn:Hrun.
  - exists reports, σ'. split; [reflexivity|].
    destruct (collect_logs_error_per_contest _ _ _ _ _ _ Hrun)
      as (index & contests & errs & _ & _ & _ & _).
    vm_compute in Hrun. injection Hrun as <- <-. split; reflexivity.
  - vm_compute in Hrun. discriminate Hrun.
Defined.

Lemma collect_preserves_page_order_witness :
  ∃ reports σ' (chosen : list contest),
    Code4rena.collect Cases.world_words Samples.dumps 5 Samples.store0
    = (Ok reports, σ')
    ∧ List.length chosen = List.length reports
    ∧ List.length reports = 1%nat.
Proof.
  destruct (Code4rena.collect Cases.world_words Samples.dumps 5 Samples.store0)
    as [[reports|e] σ'] eqn:Hrun.
  - destruct (collect_preserves_page_order _ _ _ _ _ _ Hrun)
      as (index & contests & chosen & _ & _ & _ & Hout).
    exists reports, σ', chosen. split; [reflexivity|].
    split; [exact (Forall2_length _ _ _ Hout)|].
    vm_compute in Hrun. by injection Hrun as <- <-.
  - vm_compute in Hrun. discriminate Hrun.
Defined.

Lemma collect_abort_footprint_witness :
  ∃ σ',
    Code4rena.collect Cases.world_headless Samples.dumps 5 Samples.store0
    = (Raise (AttributeError "'NoneType' object has no attribute 'text'"), σ')
    ∧ requests σ' = 1%nat
    ∧ files σ' = ∅.
Proof.
  destruct (Code4rena.collect Cases.world_headless Samples.dumps 5 Samples.store0)
    as [[reports|e] σ'] eqn:Hrun.
  - vm_compute in Hrun. discriminate Hrun.
  - destruct (collect_abort_footprint _ _ _ _ _ _ Hrun) as (Hreq & _ & Hf & _).
    exists σ'. split_and!; [| exact Hreq | exact Hf].
    vm_compute in Hrun. by injection Hrun as <- <-.
Defined.

Lemma collect_nothing_to_collect_witness :
  ∃ σ',
    Code4rena.collect Cases.world_empty Samples.dumps 5 Samples.store0
    = (Ok [], σ')
    ∧ requests σ' = 1%nat.
Proof.
  destruct (collect_nothing_to_collect Cases.world_empty Samples.dumps 5
              Samples.store0 _ eq_refl) as (σ' & Hrun & Hreq & _).
  - right. reflexivity.
  - exists σ'. split; [exact Hrun | exact Hreq].
Defined.

(** ** One pass of the scheduler loop *)

Lemma quiet_kept (σ σ' : state) : quiet σ σ' → kept σ σ'.
Proof. intros []. by split. Qed.

Lemma kept_refl (σ : state) : kept σ σ.
Proof. split; auto. Qed.

Lemma kept_trans (σ1 σ2 σ3 : state) : kept σ1 σ2 → kept σ2 σ3 → kept σ1 σ3.
Proof.
  intros [] []. split; try congruence.
  intros path. destruct (kept_files1 path) as [H|H]; [|by right].
  rewrite H. apply kept_files0.
Qed.

Lemma kept_emit (ev : event) (σ : state) : kept σ (snd (emit ev σ)).
Proof. split; cbn; auto. Qed.

Section SchedulerFacts.

Context (w : World node).
Context (json_dumps : gmap string pyval → string).

Lemma iteration_kept (σ : state) : kept σ (snd (Run.iteration w json_dumps σ)).
Proof.
  rewrite iteration_eq.
  pose proof (quietly_collect w json_dumps 5 σ) as Hq.
  destruct (Code4rena.collect w json_dumps 5 σ) as [[reports|e] σc]; cbn in Hq;
    apply quiet_kept in Hq; (eapply kept_trans; [exact Hq|]).
  - apply kept_emit.
  - unfold bind, Run.print, Run.sleep. cbn. split; cbn; auto.
Qed.

(** A pass backs off to the 60 second sleep exactly when the index request
    raises or one of the first five contest cards has no heading; contests
    that fail one by one leave the pass on the 3600 second sleep. *)
Theorem pass_backoff_cause (σ : state) :
  ∃ s,
    sleeps (trace (snd (Run.iteration w json_dumps σ)))
    = sleeps (trace σ) ++ [s]
    ∧ (s = 60 ∨ s = 3600)
    ∧ (s = 60
       ↔ (∃ e, http_get w (requests σ) Code4rena.contests_url = Raise e)
         ∨ (∃ index, http_get w (requests σ) Code4rena.contests_url = Ok index
                     ∧ Exists (λ el, find "h3" el = None)
                         (Code4rena.contest_elements 5 index))).
Proof.
  destruct (iteration_outcome w json_dumps σ) as [_ Htr].
  pose proof (quietly_collect w json_dumps 5 σ) as Hq.
  pose proof (collect_account w json_dumps 5 σ) as H. cbn zeta in H.
  destruct (http_get w (requests σ) Code4rena.contests_url) as [index|e].
  - pose proof (get_contests_loop_outcome
                  (Code4rena.contest_elements 5 index)) as Hall.
    destruct (Code4rena.get_contests_loop _ []) as [contests|e] eqn:Hcs.
    + destruct H as (rs & errs & chosen & σ2 & Hc & _).
      rewrite Hc in Htr, Hq. cbn in Hq.
      exists 3600. rewrite Htr, sleeps_app, (quiet_sleeps _ _ Hq).
      split_and!; [done | by right |]. split; [done|].
      intros [[e He]|(index' & Hi & Hex)]; [discriminate He|].
      injection Hi as <-. destruct Hall as [_ Hall].
      apply Exists_exists in Hex as (el & Hel & Hnone).
      rewrite Forall_forall in Hall. destruct (Hall el Hel) as [h3 Hh3].
      congruence.
    + destruct H as (σ2 & Hc & _). rewrite Hc in Htr, Hq. cbn in Hq.
      exists 60. rewrite Htr, sleeps_app, (quiet_sleeps _ _ Hq).
      split_and!; [done | by left |]. split; [|done].
      intros _. right. exists index. by destruct Hall.
  - destruct H as (σ2 & Hc & _). rewrite Hc in Htr, Hq. cbn in Hq.
    exists 60. rewrite Htr, sleeps_app, (quiet_sleeps _ _ Hq).
    split_and!; [done | by left |]. split; [|done]. intros _. left. by exists e.
Qed.

Lemma iteration_requests (σ : state) :
  (requests σ + 1 ≤ requests (snd (Run.iteration w json_dumps σ))
   ≤ requests σ + 6)%nat.
Proof.
  rewrite iteration_eq.
  pose proof (collect_account w json_dumps 5 σ) as H. cbn zeta in H.
  destruct (http_get w (requests σ) Code4rena.contests_url) as [index|e].
  - destruct (Code4rena.get_contests_loop _ []) as [contests|e] eqn:Hcs.
    + destruct H as (rs & errs & chosen & σ2 & -> & _ & _ & Hreq & _). cbn.
      apply get_contests_loop_length in Hcs. cbn in Hcs.
      rewrite length_take in Hcs. lia.
    + destruct H as (σ2 & -> & Hreq & _). cbn. lia.
  - destruct H as (σ2 & -> & Hreq & _). cbn. lia.
Qed.

(** One pass of the loop body never raises, issues at least one and at
    most six HTTP requests (the index and up to five contest pages), and
    stores nothing: both tables and the set of directories are as before
    and every file is as it was or empty. *)
Theorem pass_footprint (σ : state) :
  fst (Run.iteration w json_dumps σ) = Ok tt
  ∧ (requests σ + 1 ≤ requests (snd (Run.iteration w json_dumps σ))
     ≤ requests σ + 6)%nat
  ∧ kept σ (snd (Run.iteration w json_dumps σ)).
Proof.
  split_and!.
  - apply iteration_outcome.
  - apply iteration_requests.
  - apply iteration_requests.
  - apply iteration_kept.
Qed.

End SchedulerFacts.

(** ** Validation looks at keys only *)

(** [validate_data] depends on the set of keys alone: two records with the
    same keys are both accepted or both refused, whatever they hold. *)
Theorem validate_data_depends_on_keys_only (data data' : gmap string pyval) :
  dom data = dom data' →
  BaseCollector.validate_data data = BaseCollector.validate_data data'.
Proof.
  intros Hdom.
  assert (∀ k, bool_decide (is_Some (data !! k))
               = bool_decide (is_Some (data' !! k))) as Hk.
  { intros k. apply bool_decide_ext. by rewrite <- !elem_of_dom, Hdom. }
  unfold BaseCollector.validate_data, BaseCollector.required_fields.
  cbn [forallb]. by rewrite !Hk.
Qed.

Lemma validate_data_depends_on_keys_only_witness :
  BaseCollector.validate_data Samples.untitled_record
  = BaseCollector.validate_data
      (<["title" := VStr "Escrow audit"]> Samples.untitled_record).
Proof.
  apply validate_data_depends_on_keys_only. apply set_eq. intros k.
  rewrite dom_insert_L. unfold Samples.untitled_record. cbn [list_to_map foldr uncurry].
  rewrite !dom_insert_L. set_solver.
Defined.

(** Each of the four required keys is needed: a record from which one of
    them has been deleted is refused. *)
Theorem validate_data_needs_each_key (data : gmap string pyval) (k : string) :
  k ∈ BaseCollector.required_fields →
  BaseCollector.validate_data (delete k data) = false.
Proof.
  intros Hk. apply not_true_iff_false. unfold BaseCollector.validate_data.
  rewrite forallb_forall. intros Hall.
  specialize (Hall k (proj1 (list_elem_of_In _ _) Hk)).
  apply bool_decide_eq_true in Hall. rewrite lookup_delete_eq in Hall.
  by destruct Hall.
Qed.

Lemma validate_data_needs_each_key_witness :
  BaseCollector.validate_data (delete "date" Samples.untitled_record) = false.
Proof.
  apply validate_data_needs_each_key.
  unfold BaseCollector.required_fields. set_solver.
Defined.

Lemma report_dict_dom c date fs prize n :
  dom (Code4rena.report_dict c date fs prize n) = report_keys.
Proof.
  unfold Code4rena.report_dict, report_keys. cbn [list_to_map foldr uncurry].
  rewrite !dom_insert_L, dom_empty_L. set_solver.
Qed.

Lemma Forall2_Forall_right {A B} (P : B → Prop) (Q : A → B → Prop)
    (l : list A) (k : list B) :
  (∀ a b, Q a b → P b) → Forall2 Q l k → Forall P k.
Proof. intros HQ H. induction H; constructor; eauto. Qed.

Section RecordFacts.

Context (w : World node).
Context (json_dumps : gmap string pyval → string).

(** Every record [collect] returns has exactly the seven keys [platform],
    [title], [url], [date], [findings], [prize_pool] and [participants]. *)
Theorem collect_records_have_seven_keys (limit : Z) (σ σ' : state)
    (reports : list (gmap string pyval)) :
  Code4rena.collect w json_dumps limit σ = (Ok reports, σ') →
  Forall (λ r, dom r = report_keys) reports.
Proof.
  intros Hc. pose proof (collect_account w json_dumps limit σ) as H. cbn zeta in H.
  destruct (http_get w (requests σ) Code4rena.contests_url) as [index|e].
  - destruct (Code4rena.get_contests_loop _ []) as [contests|e] eqn:Hcs.
    + destruct H as (rs & errs & chosen & σ2 & Hc' & _ & _ & _ & _ & Hout).
      rewrite Hc in Hc'. injection Hc' as <- <-.
      eapply Forall2_Forall_right; [|exact Hout].
      intros c r (k & page & date & n & _ & _ & ->). apply report_dict_dom.
    + destruct H as (σ2 & Hc' & _). congruence.
  - destruct H as (σ2 & Hc' & _). congruence.
Qed.


End RecordFacts.

Lemma collect_records_have_seven_keys_witness :
  ∃ reports σ',
    Code4rena.collect Samples.world_two Samples.dumps 5 Samples.store0
    = (Ok reports, σ')
    ∧ Forall (λ r, dom r = report_keys) reports.
Proof.
  destruct (Code4rena.collect Samples.world_two Samples.dumps 5 Samples.store0)
    as [[reports|e] σ'] eqn:Hrun.
  - exists reports, σ'. split; [reflexivity|].
    exact (collect_records_have_seven_keys _ _ _ _ _ _ Hrun).
  - vm_compute in Hrun. discriminate Hrun.
Defined.

(** ** Where the extractors look *)

Lemma descendants_app nm cl at_ (xs ys : list node) :
  descendants (Tag nm cl at_ (xs ++ ys))
  = descendants (Tag nm cl at_ xs) ++ descendants (Tag nm cl at_ ys).
Proof.
  cbn [descendants]. induction xs as [|x xs IH]; [reflexivity|].
  cbn [app]. rewrite IH, <- app_assoc. reflexivity.
Qed.

(** The findings of a page made of two parts in a row are the findings of
    the first part followed by those of the second. *)
Theorem extract_findings_in_sequence nm cl at_ (xs ys : list node) :
  Code4rena.extract_findings (Tag nm cl at_ (xs ++ ys))
  = Code4rena.extract_findings (Tag nm cl at_ xs)
    ++ Code4rena.extract_findings (Tag nm cl at_ ys).
Proof.
  unfold Code4rena.extract_findings, find_all.
  rewrite !extract_findings_loop_map, descendants_app, List.filter_app,
    List.map_app. reflexivity.
Qed.

(** Finding containers are found at any depth: an element wrapped around
    content adds its own record in front when it is itself a finding
    container, and nothing otherwise; the findings inside it are reported
    either way, so a container nested in a container gives two records. *)
Theorem extract_findings_any_depth nm cl at_ nm' cl' at_' (cs : list node) :
  Code4rena.extract_findings (Tag nm cl at_ [Tag nm' cl' at_' cs])
  = (if is_finding_container (Tag nm' cl' at_' cs)
     then [Code4rena.finding_of (Tag nm' cl' at_' cs)] else [])
    ++ Code4rena.extract_findings (Tag nm' cl' at_' cs).
Proof.
  unfold Code4rena.extract_findings, find_all.
  rewrite !extract_findings_loop_map. cbn [app].
  change (descendants (Tag nm cl at_ [Tag nm' cl' at_' cs]))
    with (Tag nm' cl' at_' cs :: descendants (Tag nm' cl' at_' cs) ++ []).
  rewrite app_nil_r. cbn [List.filter]. unfold is_finding_container.
  by destruct (is_tag "div" (Tag nm' cl' at_' cs)
               && has_class "finding" (Tag nm' cl' at_' cs)).
Qed.

Lemma find_class_app name cls nm cl at_ (xs ys : list node) :
  find_class name cls (Tag nm cl at_ (xs ++ ys))
  = match find_class name cls (Tag nm cl at_ xs) with
    | Some el => Some el
    | None => find_class name cls (Tag nm cl at_ ys)
    end.
Proof.
  unfold find_class, find_all. rewrite descendants_app, List.filter_app.
  by destruct (List.filter _ (descendants (Tag nm cl at_ xs))).
Qed.

(** Only the first participant-count node and the first prize-pool
    container in document order are read: once the front part of a page has
    one, what follows it changes neither value, even if the first count
    does not parse and a later one would. *)
Theorem extractors_read_first_match nm cl at_ (xs ys : list node) :
  Code4rena.extract_participants (Tag nm cl at_ (xs ++ ys))
  = match find_class "span" "participants-count" (Tag nm cl at_ xs) with
    | Some _ => Code4rena.extract_participants (Tag nm cl at_ xs)
    | None => Code4rena.extract_participants (Tag nm cl at_ ys)
    end
  ∧ Code4rena.extract_prize_pool (Tag nm cl at_ (xs ++ ys))
    = match find_class "div" "prize-pool" (Tag nm cl at_ xs) with
      | Some _ => Code4rena.extract_prize_pool (Tag nm cl at_ xs)
      | None => Code4rena.extract_prize_pool (Tag nm cl at_ ys)
      end.
Proof.
  unfold Code4rena.extract_participants, Code4rena.extract_prize_pool.
  rewrite !find_class_app.
  split.
  - by destruct (find_class "span" "participants-count" (Tag nm cl at_ xs)).
  - by destruct (find_class "div" "prize-pool" (Tag nm cl at_ xs)).
Qed.

(** ** Strings: trimming *)

Lemma str_app_cons (c : ascii) (a b : string) :
  String c a +:+ b = String c (a +:+ b).
Proof. reflexivity. Qed.

Lemma str_app_nil_l (b : string) : EmptyString +:+ b = b.
Proof. reflexivity. Qed.

Lemma str_app_nil_r (s : string) : s +:+ EmptyString = s.
Proof. induction s as [|c s IH]; [done|]. by rewrite str_app_cons, IH. Qed.

Lemma str_app_assoc (a b c : string) : (a +:+ b) +:+ c = a +:+ (b +:+ c).
Proof. induction a as [|x a IH]; [done|]. by rewrite !str_app_cons, IH. Qed.

Lemma rev_app_spec (s t : string) : String.rev_app s t = String.rev s +:+ t.
Proof.
  unfold String.rev. revert t. induction s as [|c s IH]; intros t; [done|].
  cbn. rewrite IH, (IH (String c EmptyString)), str_app_assoc. reflexivity.
Qed.

Lemma rev_cons (c : ascii) (s : string) :
  String.rev (String c s) = String.rev s +:+ String c EmptyString.
Proof. unfold String.rev at 1. cbn. apply rev_app_spec. Qed.

Lemma rev_append (a b : string) :
  String.rev (a +:+ b) = String.rev b +:+ String.rev a.
Proof.
  induction a as [|c a IH].
  - by rewrite str_app_nil_l, str_app_nil_r.
  - by rewrite str_app_cons, !rev_cons, IH, str_app_assoc.
Qed.

Lemma rev_involutive (s : string) : String.rev (String.rev s) = s.
Proof.
  induction s as [|c s IH]; [done|]. by rewrite rev_cons, rev_append, IH.
Qed.

Lemma all_chars_app (p : ascii → bool) (a b : string) :
  all_chars p (a +:+ b) = all_chars p a && all_chars p b.
Proof.
  induction a as [|c a IH]; [done|].
  rewrite str_app_cons. cbn [all_chars]. by rewrite IH, andb_assoc.
Qed.

Lemma all_chars_rev (p : ascii → bool) (s : string) :
  all_chars p (String.rev s) = all_chars p s.
Proof.
  induction s as [|c s IH]; [done|].
  rewrite rev_cons, all_chars_app, IH. cbn. rewrite andb_true_r. apply andb_comm.
Qed.

Section Trimming.

Context (sp : ascii → bool).

Lemma lstrip_by_all (s : string) :
  all_chars sp s = true → lstrip_by sp s = EmptyString.
Proof.
  induction s as [|c s IH]; cbn; [done|]. intros [Hc Hs]%andb_true_iff.
  rewrite Hc. auto.
Qed.

Lemma lstrip_by_app (a b : string) :
  lstrip_by sp (a +:+ b)
  = if all_chars sp a then lstrip_by sp b else lstrip_by sp a +:+ b.
Proof.
  induction a as [|c a IH]; [done|].
  rewrite str_app_cons. cbn [lstrip_by all_chars].
  destruct (sp c); cbn [andb]; [exact IH | done].
Qed.

Lemma lstrip_by_no_leading (s : string) : leads_with sp (lstrip_by sp s) = false.
Proof.
  induction s as [|c s IH]; cbn; [done|].
  destruct (sp c) eqn:Hc; [exact IH | exact Hc].
Qed.

Lemma lstrip_by_id (s : string) : leads_with sp s = false → lstrip_by sp s = s.
Proof. destruct s as [|c s]; cbn; [done|]. by intros ->. Qed.

Lemma strip_by_trimmed (s : string) : trimmed_by sp (strip_by sp s).
Proof.
  unfold strip_by. split; [|by rewrite rev_involutive, lstrip_by_no_leading].
  pose proof (lstrip_by_no_leading s) as Hhead.
  destruct (lstrip_by sp s) as [|c t]; [done|]. cbn [leads_with] in Hhead.
  rewrite rev_cons, lstrip_by_app.
  destruct (all_chars sp (String.rev t)).
  - cbn. by rewrite Hhead.
  - rewrite rev_append. cbn. exact Hhead.
Qed.

Lemma strip_by_of_trimmed (s : string) : trimmed_by sp s → strip_by sp s = s.
Proof.
  intros [Hhead Htail]. unfold strip_by.
  by rewrite (lstrip_by_id s Hhead), (lstrip_by_id _ Htail), rev_involutive.
Qed.

Lemma strip_by_padded (lead s trail : string) :
  all_chars sp lead = true → all_chars sp trail = true →
  trimmed_by sp s → s ≠ EmptyString →
  strip_by sp (lead +:+ s +:+ trail) = s.
Proof.
  intros Hlead Htrail [Hhead Htail] Hne. unfold strip_by.
  rewrite lstrip_by_app, Hlead.
  destruct s as [|c s]; [done|]. cbn [leads_with] in Hhead.
  rewrite str_app_cons. cbn [lstrip_by]. rewrite Hhead.
  rewrite <- str_app_cons.
  rewrite rev_append, lstrip_by_app, all_chars_rev, Htrail.
  by rewrite (lstrip_by_id _ Htail), rev_involutive.
Qed.

End Trimming.

Lemma lstrip_is_by (s : string) : lstrip s = lstrip_by is_space s.
Proof. induction s as [|c s IH]; cbn; [done|]. by rewrite IH. Qed.

Lemma strip_is_by (s : string) : strip s = strip_by is_space s.
Proof. unfold strip, rstrip, strip_by. by rewrite !lstrip_is_by. Qed.

(** [strip] leaves a string that neither starts nor ends with white space,
    is the identity on such strings (so stripping twice is stripping once),
    and reduces a string of white space to the empty string. *)
Theorem strip_trims (s : string) :
  trimmed_by is_space (strip s)
  ∧ strip (strip s) = strip s
  ∧ (trimmed_by is_space s → strip s = s)
  ∧ (all_chars is_space s = true → strip s = EmptyString).
Proof.
  rewrite !strip_is_by. split_and!.
  - apply strip_by_trimmed.
  - apply strip_by_of_trimmed, strip_by_trimmed.
  - apply strip_by_of_trimmed.
  - intros Hs. unfold strip_by. by rewrite (lstrip_by_all _ s Hs).
Qed.

Lemma strip_trims_witness :
  strip "Escrow audit" = "Escrow audit" ∧ strip "   " = "".
Proof.
  split.
  - apply (strip_trims "Escrow audit"). by split.
  - by apply (strip_trims "   ").
Defined.



(** ** Strings: numerals *)

Lemma digit_of_pretty_N_char (d : N) :
  (d < 10)%N → digit_of (pretty_N_char d) = Some (Z.of_N d).
Proof.
  intros Hd.
  assert (d = 0 ∨ d = 1 ∨ d = 2 ∨ d = 3 ∨ d = 4 ∨ d = 5 ∨ d = 6 ∨ d = 7
          ∨ d = 8 ∨ d = 9)%N as Hcases by lia.
  repeat (destruct Hcases as [-> | Hcases]; [reflexivity|]). by subst d.
Qed.

Lemma digits_value_pretty_N_go (x : N) :
  ∀ s, (0 < x)%N →
    digits_value 0 false (pretty_N_go x s) = digits_value (Z.of_N x) true s.
Proof.
  induction (N.lt_wf_0 x) as [x _ IH]. intros s Hx.
  rewrite pretty_N_go_step by done.
  pose proof (N.div_mod x 10 ltac:(done)) as Hdm.
  pose proof (N.mod_lt x 10 ltac:(done)) as Hlt.
  destruct (N.eq_0_gt_0_cases (x `div` 10)) as [Hq|Hq].
  - rewrite Hq, pretty_N_go_0. cbn [digits_value].
    rewrite digit_of_pretty_N_char by done. f_equal. lia.
  - rewrite IH by (done || by apply N.div_lt). cbn [digits_value].
    rewrite digit_of_pretty_N_char by done. f_equal. lia.
Qed.

Lemma all_digits_pretty_N_go (x : N) :
  ∀ s, all_chars is_digit s = true → all_chars is_digit (pretty_N_go x s) = true.
Proof.
  induction (N.lt_wf_0 x) as [x _ IH]. intros s Hs.
  destruct (N.eq_0_gt_0_cases x) as [->|Hx]; [by rewrite pretty_N_go_0|].
  rewrite pretty_N_go_step by done. apply IH; [by apply N.div_lt|].
  cbn [all_chars]. rewrite Hs, andb_true_r. apply bool_decide_eq_true.
  rewrite digit_of_pretty_N_char by (by apply N.mod_lt). by eexists.
Qed.

Lemma pretty_N_go_nonempty (x : N) (s : string) :
  (0 < x)%N → pretty_N_go x s ≠ EmptyString.
Proof.
  revert s. induction (N.lt_wf_0 x) as [x _ IH]. intros s Hx.
  rewrite pretty_N_go_step by done.
  destruct (N.eq_0_gt_0_cases (x `div` 10)) as [Hq|Hq].
  - by rewrite Hq, pretty_N_go_0.
  - apply IH; [by apply N.div_lt | done].
Qed.

Lemma pretty_N_digits (n : N) :
  all_chars is_digit (pretty n) = true
  ∧ pretty n ≠ EmptyString
  ∧ digits_value 0 false (pretty n) = Some (Z.of_N n).
Proof.
  unfold pretty, pretty_N. case_decide as Hn; [by subst n|].
  assert (0 < n)%N as Hpos by lia. split_and!.
  - by apply all_digits_pretty_N_go.
  - by apply pretty_N_go_nonempty.
  - by rewrite digits_value_pretty_N_go.
Qed.

Lemma digit_not_int_space (c : ascii) : is_digit c = true → is_int_space c = false.
Proof.
  unfold is_digit, digit_of, is_int_space. intros [d Hd]%bool_decide_eq_true.
  destruct (48 <=? nat_of_ascii c)%nat eqn:H1; [|done].
  destruct (nat_of_ascii c <=? 57)%nat eqn:H2; [|done].
  apply Nat.leb_le in H1, H2.
  apply orb_false_iff. split.
  - apply andb_false_iff. right. apply Nat.leb_gt. lia.
  - apply Nat.eqb_neq. lia.
Qed.

Lemma all_digits_trimmed (s : string) :
  all_chars is_digit s = true → trimmed_by is_int_space s.
Proof.
  assert (∀ t, all_chars is_digit t = true → leads_with is_int_space t = false)
    as Hlead.
  { intros [|c t]; [done|]. cbn. intros [Hc _]%andb_true_iff.
    by apply digit_not_int_space. }
  intros Hs. split; apply Hlead; [done|]. by rewrite all_chars_rev.
Qed.

(** [int] on a string whose stripped form starts with a digit reads the
    digits. *)
Lemma int_unsigned (s : string) (c : ascii) (t : string) :
  strip_by is_int_space s = String c t → is_digit c = true →
  int s = match digits_value 0 false (String c t) with
          | Some v => Ok v
          | None => Raise (ValueError ("invalid literal for int() with base 10: "
                                       +:+ repr s))
          end.
Proof.
  intros Hs [d Hd]%bool_decide_eq_true. unfold int. rewrite Hs.
  destruct c as [[] [] [] [] [] [] [] []]; try discriminate Hd; reflexivity.
Qed.

(** [int] reads back the decimal numeral of every natural number, also
    when tabs, line breaks or spaces surround it. *)
Theorem int_reads_numeral (n : N) (lead trail : string) :
  all_chars is_int_space lead = true → all_chars is_int_space trail = true →
  int (lead +:+ pretty n +:+ trail) = Ok (Z.of_N n).
Proof.
  intros Hlead Htrail.
  destruct (pretty_N_digits n) as (Hdig & Hne & Hval).
  pose proof (strip_by_padded is_int_space lead (pretty n) trail Hlead Htrail
                (all_digits_trimmed _ Hdig) Hne) as Hstrip.
  destruct (pretty n) as [|c t] eqn:Hp; [done|].
  rewrite (int_unsigned _ c t Hstrip).
  - by rewrite Hval.
  - cbn in Hdig. by apply andb_true_iff in Hdig as [Hc _].
Qed.

Lemma int_reads_numeral_witness : int (" " +:+ pretty 1200%N +:+ "  ") = Ok 1200.
Proof. by apply (int_reads_numeral 1200 " " "  "). Defined.



Example int_separator_not_skipped :
  is_ok (int (String (ascii_of_nat 28) "5")) = false
  ∧ strip (String (ascii_of_nat 28) "5") = "5".
Proof. split; reflexivity. Qed.

(** ** Where the raw file goes *)

Lemma slash_free_cons (c : ascii) (s : string) :
  slash_free (String c s) ↔ Ascii.eqb c "/" = false ∧ slash_free s.
Proof.
  unfold slash_free. cbn [dirname_go].
  destruct (dirname_go s); [intuition discriminate|].
  destruct (Ascii.eqb c "/"); intuition discriminate.
Qed.

Lemma slash_free_app (a b : string) :
  slash_free a → slash_free b → slash_free (a +:+ b).
Proof.
  induction a as [|c a IH]; [done|].
  rewrite str_app_cons, !slash_free_cons. intros [Hc Ha] Hb. auto.
Qed.

Lemma dirname_go_after_slash (s t : string) :
  slash_free t → dirname_go (s +:+ String "/" t) = Some s.
Proof.
  intros Ht. induction s as [|c s IH].
  - rewrite str_app_nil_l. cbn [dirname_go]. unfold slash_free in Ht.
    by rewrite Ht.
  - rewrite str_app_cons. cbn [dirname_go]. by rewrite IH.
Qed.

Lemma raw_path_dirname (name filename timestamp : string) :
  slash_free name → slash_free filename → slash_free timestamp →
  dirname (BaseCollector.raw_path name filename timestamp) = "data/raw".
Proof.
  intros Hn Hf Ht. unfold dirname, BaseCollector.raw_path.
  change ("data/raw/" +:+ ?rest) with ("data/raw" +:+ String "/" rest).
  rewrite dirname_go_after_slash; [done|].
  repeat (apply slash_free_app; [done|]); done.
Qed.

Section RawFile.

Context (w : World node).
Context (json_dumps : gmap string pyval → string).

(** For a name, a slug and a time stamp without slash the raw file lies
    directly in [data/raw], and the directory decides how [save_raw_data]
    fails: without [data/raw] it raises the error of [open] and creates
    nothing; with it, and no directory in the way at the path, it raises
    the [NameError] and leaves the empty file.  The call never creates the
    directory itself. *)
Theorem save_raw_data_by_directory (name : string) (data : gmap string pyval)
    (filename : string) (σ : state) :
  let path := BaseCollector.raw_path name filename (now_stamp w (clock_reads σ)) in
  slash_free name → slash_free filename →
  slash_free (now_stamp w (clock_reads σ)) →
  path ∉ dirs σ →
  ∃ σ',
    dirs σ' = dirs σ
    ∧ if bool_decide ("data/raw" ∈ dirs σ)
      then BaseCollector.save_raw_data w json_dumps name data filename σ
           = (Raise (NameError "name 'json' is not defined"), σ')
           ∧ files σ' = <[path := EmptyString]> (files σ)
      else BaseCollector.save_raw_data w json_dumps name data filename σ
           = (Raise (OSError ("[Errno 2] No such file or directory: "
                              +:+ repr path)), σ')
           ∧ files σ' = files σ.
Proof.
  intros path Hn Hf Ht Hnodir.
  pose proof (raw_path_dirname name filename _ Hn Hf Ht) as Hdir. fold path in Hdir.
  unfold BaseCollector.save_raw_data.
  rewrite json_unbound. unfold bind, BaseCollector.read_clock, open_w, raise.
  cbn. fold path. rewrite Hdir.
  rewrite (bool_decide_eq_false_2 _ Hnodir).
  destruct (bool_decide ("data/raw" ∈ dirs σ)); eexists;
    (split; [|split; reflexivity]); reflexivity.
Qed.

End RawFile.

Lemma save_raw_data_by_directory_witness :
  ∃ σ',
    BaseCollector.save_raw_data Samples.world_two Samples.dumps "Code4rena"
      Samples.untitled_record "alpha" Samples.store0
    = (Raise (OSError ("[Errno 2] No such file or directory: "
                       +:+ "'data/raw/Code4rena_alpha_20240101_000000.json'")),
       σ')
    ∧ files σ' = ∅.
Proof.
  destruct (save_raw_data_by_directory Samples.world_two Samples.dumps
              "Code4rena" Samples.untitled_record "alpha" Samples.store0)
    as (σ' & _ & Hrun); try reflexivity.
  - cbn. set_solver.
  - exists σ'. exact Hrun.
Defined.
